(** * SNTP server: message codec and request pipeline

    A shallow embedding of [sntp_server.py].

    - [bytes] values are lists of [Byte.byte]; Python [int]s are [Z].
    - A Python [float] is a binary64 value, embedded as the rational it
      denotes.  Float addition is the exact sum rounded to the nearest
      value with a 53-bit significand, ties to even ([round53]); an
      [int] operand is converted the same way first.  Multiplying by
      [2 ** 32] is exact, and [int(x)] truncates toward zero.  A sum
      of two binary64 values that falls in the subnormal range is
      exact, so rounding to 53 bits gives it too.
    - The model has no infinities: for a delay or clock reading of
      magnitude [2^992] or more the source raises [OverflowError] in
      [get_reply] before [struct.pack] is reached, where the model has a
      stamp outside the 64-bit range and [struct.error]; either way no
      frame is returned.
    - [time()] is an input: every function that reads the clock takes
      the reading as an argument.
    - Exceptions are values of [result].
    - The receiver and worker loops are modelled one iteration at a
      time as transformers of a server state that holds the request
      queue and the log of datagrams handed to [socket.sendto]. *)

From Stdlib Require Import ZArith QArith Qround Qabs Qpower List Lia Lqa Bool.
From Stdlib Require Import Permutation.
From Stdlib Require Import Strings.Byte Ascii String.
Import ListNotations.

Local Open Scope Z_scope.

(** ** Exceptions *)

Inductive exn : Set :=
| struct_error.

Inductive result (A : Type) : Type :=
| Ok (a : A)
| Raise (e : exn).

Arguments Ok {A} a.
Arguments Raise {A} e.

Definition bind {A B : Type} (r : result A) (k : A -> result B) : result B :=
  match r with
  | Ok a => k a
  | Raise e => Raise e
  end.

Notation "x <- c ;; k" := (bind c (fun x => k))
  (at level 61, c at next level, right associativity).

(** ** Byte strings *)

Definition bytes : Type := list byte.

Definition byte_to_Z (x : byte) : Z := Z.of_N (Byte.to_N x).

Definition byte_of_Z (z : Z) : byte :=
  match Byte.of_N (Z.to_N (z mod 256)) with
  | Some x => x
  | None => x00
  end.

(** [data[i]] for an index inside the string. *)
Definition index (data : bytes) (i : nat) : Z := byte_to_Z (nth i data x00).

(** [data[lo:hi]]: Python clamps both ends to the length. *)
Definition slice (data : bytes) (lo hi : nat) : bytes :=
  firstn (hi - lo) (skipn lo data).

(** [int.from_bytes(data, 'big')]. *)
Definition from_bytes_big (data : bytes) : Z :=
  fold_left (fun acc x => acc * 256 + byte_to_Z x) data 0.

(** The [n] low-order bytes of [z], most significant first. *)
Fixpoint to_bytes_big (n : nat) (z : Z) : bytes :=
  match n with
  | O => []
  | S k => byte_of_Z (Z.shiftr z (8 * Z.of_nat k)) :: to_bytes_big k z
  end.

(** ** [struct.pack] with a big-endian, standard-size format *)

Module Struct.

Inductive code : Set :=
| fmt_B   (* unsigned char *)
| fmt_b   (* signed char *)
| fmt_I   (* unsigned int, 4 bytes *)
| fmt_Q.  (* unsigned long long, 8 bytes *)

Definition size (c : code) : nat :=
  match c with
  | fmt_B | fmt_b => 1
  | fmt_I => 4
  | fmt_Q => 8
  end.

Definition in_range (c : code) (v : Z) : bool :=
  match c with
  | fmt_B => (0 <=? v) && (v <? 2 ^ 8)
  | fmt_b => (- 2 ^ 7 <=? v) && (v <? 2 ^ 7)
  | fmt_I => (0 <=? v) && (v <? 2 ^ 32)
  | fmt_Q => (0 <=? v) && (v <? 2 ^ 64)
  end.

Definition code_of_ascii (a : ascii) : option code :=
  match a with
  | "B"%char => Some fmt_B
  | "b"%char => Some fmt_b
  | "I"%char => Some fmt_I
  | "Q"%char => Some fmt_Q
  | _ => None
  end.

Definition digit_of_ascii (a : ascii) : option nat :=
  let n := nat_of_ascii a in
  if ((48 <=? n) && (n <=? 57))%nat then Some (n - 48)%nat else None.

(** The codes of a format, each repeated by its count; [cnt] is the
    repeat count read so far. *)
Fixpoint parse_codes (s : string) (cnt : option nat) : option (list code) :=
  match s with
  | EmptyString =>
      match cnt with
      | None => Some []
      | Some _ => None
      end
  | String a rest =>
      match digit_of_ascii a with
      | Some d =>
          parse_codes rest
            (Some (match cnt with Some n => 10 * n + d | None => d end)%nat)
      | None =>
          match code_of_ascii a, parse_codes rest None with
          | Some c, Some cs =>
              Some (repeat c (match cnt with Some n => n | None => 1%nat end)
                      ++ cs)
          | _, _ => None
          end
      end
  end.

(** Only the ['>'] byte order (big-endian, no padding) is modelled. *)
Definition parse_format (fmt : string) : option (list code) :=
  match fmt with
  | String ">"%char rest => parse_codes rest None
  | _ => None
  end.

Definition pack_one (c : code) (v : Z) : result bytes :=
  if in_range c v then Ok (to_bytes_big (size c) v) else Raise struct_error.

Fixpoint pack_items (cs : list code) (vs : list Z) : result bytes :=
  match cs, vs with
  | [], [] => Ok []
  | c :: cs', v :: vs' =>
      x <- pack_one c v ;;
      rest <- pack_items cs' vs' ;;
      Ok (x ++ rest)
  | _, _ => Raise struct_error
  end.

Definition pack (fmt : string) (vs : list Z) : result bytes :=
  match parse_format fmt with
  | Some cs => pack_items cs vs
  | None => Raise struct_error
  end.

End Struct.

(** ** The message object *)

(** [(date(1970, 1, 1) - date(1900, 1, 1)).days * 24 * 3600]: 70 years
    of 365 days and the 17 leap days of 1904 .. 1968. *)
Definition TIME_OFFSET : Z := (70 * 365 + 17) * 24 * 3600.

(** [int(x)] on a float: the integer part, rounding toward zero. *)
Definition py_int (x : Q) : Z := Z.quot (Qnum x) (Zpos (Qden x)).

(** ** Binary64 arithmetic *)

Definition pow2 (e : Z) : Q := Qpower 2 e.

(** For [0 < x], the exponent [e] with [2^e <= x < 2^(e+1)]: the
    difference of the bit lengths of numerator and denominator, or one
    less. *)
Definition ilog2 (x : Q) : Z :=
  let k := Z.log2 (Qnum x) - Z.log2 (Zpos (Qden x)) in
  if Qle_bool (pow2 k) x then k else k - 1.

(** The nearest integer, the even one of two that are equally near. *)
Definition round_half_even (r : Q) : Z :=
  let f := Qfloor r in
  match (r - inject_Z f ?= 1 # 2)%Q with
  | Lt => f
  | Gt => f + 1
  | Eq => if Z.even f then f else f + 1
  end.

(** The nearest multiple of [2^s]. *)
Definition round_at (s : Z) (x : Q) : Q :=
  (inject_Z (round_half_even (x / pow2 s)) * pow2 s)%Q.

(** The nearest value with a 53-bit significand: for [2^e <= |x| <
    2^(e+1)] the nearest multiple of [2^(e-52)]. *)
Definition round53 (x : Q) : Q :=
  if Qeq_bool x 0 then 0%Q else round_at (ilog2 (Qabs x) - 52) x.

(** [float(z)] for an int. *)
Definition float_of_int (z : Z) : Q := round53 (inject_Z z).

(** [x + y] on floats. *)
Definition fadd (x y : Q) : Q := round53 (x + y).

(** A Python number as this program has them: an [int] or a [float]. *)
Inductive number : Type :=
| Int (z : Z)
| Float (x : Q).

Definition number_value (n : number) : Q :=
  match n with
  | Int z => inject_Z z
  | Float x => x
  end.

(** [n + d] for an int [d]: exact on two ints; on a float, [d] is
    converted and the sum is a float sum. *)
Definition add_int (n : number) (d : Z) : number :=
  match n with
  | Int z => Int (z + d)
  | Float x => Float (fadd x (float_of_int d))
  end.

Module SNTPMessage.

Record t : Type := mk {
  correct : bool;
  raw : bytes;
  time_offset : Z;
  leap_indicator : Z;
  version : Z;
  mode : Z;
  stratum : Z;
  poll : Z;
  precision : Z;
  root_delay : Z;
  root_dispersion : Z;
  ref_id : Z;
  ref_time : Z;
  originate_time : Z;
  receive_time : number;
  transmit_time : Z
}.

(** [__init__] with every argument given. *)
Definition init (is_correct : bool) (version mode originate_time : Z)
    (receive_time : number) : t :=
  {| correct := is_correct;
     raw := [];
     time_offset := 0;
     leap_indicator := 0;
     version := version;
     mode := mode;
     stratum := 0;
     poll := 0;
     precision := 0;
     root_delay := 0;
     root_dispersion := 0;
     ref_id := 0;
     ref_time := 0;
     originate_time := originate_time;
     receive_time := receive_time;
     transmit_time := 0 |}.

(** [SNTPMessage(is_correct)]: the defaults [version = 3], [mode = 3],
    [originate_time = 0], [receive_time = 0]. *)
Definition init_default (is_correct : bool) : t :=
  init is_correct 3 3 0 (Int 0).

(** The assignment [self.time_offset = v]. *)
Definition set_time_offset (self : t) (v : Z) : t :=
  {| correct := correct self;
     raw := raw self;
     time_offset := v;
     leap_indicator := leap_indicator self;
     version := version self;
     mode := mode self;
     stratum := stratum self;
     poll := poll self;
     precision := precision self;
     root_delay := root_delay self;
     root_dispersion := root_dispersion self;
     ref_id := ref_id self;
     ref_time := ref_time self;
     originate_time := originate_time self;
     receive_time := receive_time self;
     transmit_time := transmit_time self |}.

(** [raw_time] by its value: on an int the product and [int()] are
    exact, and so is the product of a float with [2 ** 32]. *)
Definition format_time (raw_time : Q) : Z :=
  py_int (raw_time * inject_Z (2 ^ 32)).

(** [now] is the reading of [time()] inside the call. *)
Definition get_reply (self : t) (now : Q) : result bytes :=
  let first :=
    Z.lor (Z.lor (Z.shiftl (leap_indicator self) 6)
                 (Z.shiftl (version self) 3))
          (mode self) in
  let receive_time :=
    format_time
      (number_value (add_int (receive_time self) (time_offset self))) in
  let transmit_time :=
    format_time
      (number_value
         (add_int (add_int (Float now) TIME_OFFSET) (time_offset self))) in
  Struct.pack ">3Bb5I3Q"
    [first; stratum self; poll self; precision self;
     0; 0; 0; 0; 0; originate_time self; receive_time; transmit_time].

(** The three values [get_reply] computes before packing, by name. *)
Definition first_byte (self : t) : Z :=
  Z.lor (Z.lor (Z.shiftl (leap_indicator self) 6)
               (Z.shiftl (version self) 3))
        (mode self).

Definition reply_receive_time (self : t) : Z :=
  format_time (number_value (add_int (receive_time self) (time_offset self))).

Definition reply_transmit_time (self : t) (now : Q) : Z :=
  format_time
    (number_value
       (add_int (add_int (Float now) TIME_OFFSET) (time_offset self))).

End SNTPMessage.

(** ** The server *)

Module Server.

Definition address : Type := (string * Z)%type.

(** [requests] is the FIFO queue, oldest entry first; [sent] logs the
    datagrams handed to [socket.sendto], oldest first. *)
Record t : Type := mk {
  port : Z;
  time_delay : Z;
  requests : list (option SNTPMessage.t * address);
  sent : list (bytes * address)
}.

(** [Server(port, time_delay)] once the socket is bound. *)
Definition init (port time_delay : Z) : t :=
  {| port := port; time_delay := time_delay; requests := []; sent := [] |}.

(** [None] is Python's [None]; [now] is the reading of [time()]. *)
Definition format_request (data : bytes) (now : Q)
    : option SNTPMessage.t :=
  if (List.length data <? 48)%nat then
    Some (SNTPMessage.init_default false)
  else
    let version := Z.shiftr (Z.land (index data 0) 56) 3 in
    let mode := Z.land (index data 0) 7 in
    let originate_time := from_bytes_big (slice data 40 48) in
    if negb (mode =? 3) then None
    else Some (SNTPMessage.init true version 4 originate_time
                 (add_int (Float now) TIME_OFFSET)).

(** [socket.recvfrom(bufsize)] on a datagram: what does not fit the
    buffer is cut off (the behaviour of POSIX datagram sockets). *)
Definition recvfrom (bufsize : nat) (datagram : bytes) : bytes :=
  firstn bufsize datagram.

(** One iteration of the receiver loop on an arriving datagram. *)
Definition receive_request (self : t) (datagram : bytes)
    (sender : address) (now : Q) : t :=
  let data := recvfrom 1024 datagram in
  {| port := port self;
     time_delay := time_delay self;
     requests := requests self ++ [(format_request data now, sender)];
     sent := sent self |}.

(** One iteration of a worker loop; [now] is the reading of [time()]
    inside [get_reply].  The state is the one left behind, also when
    the iteration raises.  In [if sntp_message:] the value [None] is
    false and an [SNTPMessage] instance is true, whatever its [correct]
    flag: the class defines neither [__bool__] nor [__len__]. *)
Definition reply_to_request (self : t) (now : Q) : t * result unit :=
  match requests self with
  | [] => (self, Ok tt)
  | (sntp_message, address) :: rest =>
      let self' :=
        {| port := port self; time_delay := time_delay self;
           requests := rest; sent := sent self |} in
      match sntp_message with
      | Some m =>
          let m' := SNTPMessage.set_time_offset m (time_delay self) in
          match SNTPMessage.get_reply m' now with
          | Ok reply =>
              ({| port := port self; time_delay := time_delay self;
                  requests := rest;
                  sent := sent self ++ [(reply, address)] |}, Ok tt)
          | Raise e => (self', Raise e)
          end
      | None => (self', Ok tt)
      end
  end.

End Server.

(** ** Reading a 48-byte frame

    The fields of a packed reply, at the offsets the format
    [">3Bb5I3Q"] gives them. *)

Definition frame_mode (frame : bytes) : Z := Z.land (index frame 0) 7.
Definition frame_version (frame : bytes) : Z :=
  Z.shiftr (Z.land (index frame 0) 56) 3.
Definition frame_originate (frame : bytes) : Z :=
  from_bytes_big (slice frame 24 32).
Definition frame_receive (frame : bytes) : Z :=
  from_bytes_big (slice frame 32 40).
Definition frame_transmit (frame : bytes) : Z :=
  from_bytes_big (slice frame 40 48).

(** A value that [struct.pack] accepts for a ['Q'] field. *)
Definition fits_u64 (v : Z) : Prop := 0 <= v < 2 ^ 64.

(** The 48-byte frame that [struct.pack('>3Bb5I3Q', ...)] lays out,
    written field by field: four single bytes, five zero 32-bit words,
    three 64-bit words. *)
Definition frame_header (first stratum poll precision : Z) : bytes :=
  to_bytes_big 1 first ++ to_bytes_big 1 stratum ++ to_bytes_big 1 poll
  ++ to_bytes_big 1 precision
  ++ to_bytes_big 4 0 ++ to_bytes_big 4 0 ++ to_bytes_big 4 0
  ++ to_bytes_big 4 0 ++ to_bytes_big 4 0.

Definition frame_layout
    (first stratum poll precision originate receive transmit : Z) : bytes :=
  frame_header first stratum poll precision
  ++ to_bytes_big 8 originate ++ to_bytes_big 8 receive
  ++ to_bytes_big 8 transmit.

(** Every argument of the [struct.pack] call in [get_reply] is in the
    range of its format code. *)
Definition packable (self : SNTPMessage.t) (now : Q) : bool :=
  Struct.in_range Struct.fmt_B (SNTPMessage.first_byte self)
  && Struct.in_range Struct.fmt_B (SNTPMessage.stratum self)
  && Struct.in_range Struct.fmt_B (SNTPMessage.poll self)
  && Struct.in_range Struct.fmt_b (SNTPMessage.precision self)
  && Struct.in_range Struct.fmt_Q (SNTPMessage.originate_time self)
  && Struct.in_range Struct.fmt_Q (SNTPMessage.reply_receive_time self)
  && Struct.in_range Struct.fmt_Q (SNTPMessage.reply_transmit_time self now).

(** The frame [get_reply] returns when nothing is out of range. *)
Definition reply_frame (self : SNTPMessage.t) (now : Q) : bytes :=
  frame_layout (SNTPMessage.first_byte self) (SNTPMessage.stratum self)
    (SNTPMessage.poll self) (SNTPMessage.precision self)
    (SNTPMessage.originate_time self) (SNTPMessage.reply_receive_time self)
    (SNTPMessage.reply_transmit_time self now).

(** [time() + TIME_OFFSET] for the clock reading [t], as the code
    computes it: the arrival time the receiver stores. *)
Definition ntp_time (t : Q) : Q :=
  number_value (add_int (Float t) TIME_OFFSET).

(** The 64-bit stamp [get_reply] computes from a Unix clock reading
    [t] under the configured delay. *)
Definition ntp_stamp (delay : Z) (t : Q) : Z :=
  SNTPMessage.format_time
    (number_value (add_int (add_int (Float t) TIME_OFFSET) delay)).

(** A datagram arrives while the clock reads [t_recv]; a worker then
    runs one iteration while the clock reads [t_send]. *)
Definition serve_one (srv : Server.t) (datagram : bytes)
    (sender : Server.address) (t_recv t_send : Q) : Server.t * result unit :=
  Server.reply_to_request
    (Server.receive_request srv datagram sender t_recv) t_send.

(** ** Schedules

    An interleaving of receiver and worker iterations.  A worker that
    raises leaves the state it reached.  In the source the exception
    then ends that worker's thread, and the schedule goes on with the
    workers that are left; the number of workers is not tracked here,
    so the schedules include every run of the source and more. *)

Inductive event : Type :=
| Arrive (datagram : bytes) (sender : Server.address) (now : Q)
| Work (now : Q).

Definition step (srv : Server.t) (ev : event) : Server.t :=
  match ev with
  | Arrive datagram sender now =>
      Server.receive_request srv datagram sender now
  | Work now => fst (Server.reply_to_request srv now)
  end.

Definition run (srv : Server.t) (evs : list event) : Server.t :=
  fold_left step evs srv.

(** Every datagram that arrives in the schedule has at least 48 bytes
    and mode bits other than 3. *)
Definition other_mode_arrival (ev : event) : Prop :=
  match ev with
  | Arrive datagram _ _ =>
      (48 <= List.length datagram)%nat /\ frame_mode datagram <> 3
  | Work _ => True
  end.

(** ** Sample inputs *)

(** A 48-byte client request: byte 0 is [0x1B] (leap indicator 0,
    version 3, mode 3), bytes 40-47 hold [0x0000000100000000]. *)
Definition sample_request : bytes :=
  [x1b] ++ repeat x00 39 ++ [x00; x00; x00; x01; x00; x00; x00; x00].

(** What [test_client.py] sends: [b'testData' * 15], 120 bytes. *)
Definition test_client_datagram : bytes :=
  List.concat (repeat [x74; x65; x73; x74; x44; x61; x74; x61] 15).

Definition sample_client : Server.address := ("127.0.0.1"%string, 50000).

(** Two clock readings one second apart, in November 2023. *)
Definition sample_t_recv : Q := inject_Z 1700000000.
Definition sample_t_send : Q := inject_Z 1700000001.

(** A binary64 clock reading between the two, one unit in the last
    place ([2^-22] s) after the first. *)
Definition sample_t_odd : Q := inject_Z 1700000000 + (1 # 4194304).

(** ** More of the pipeline *)

(** The senders of the datagrams that arrive in a schedule, in order. *)
Fixpoint arrivals (evs : list event) : list Server.address :=
  match evs with
  | [] => []
  | Arrive _ sender _ :: evs' => sender :: arrivals evs'
  | Work _ :: evs' => arrivals evs'
  end.

(** A message that [format_request] can return. *)
Definition decoded (m : SNTPMessage.t) : Prop :=
  exists data t, Server.format_request data t = Some m.

(** What every frame the server sends has in common: 48 bytes, leap
    indicator 0, and zero in bytes 1-23 (stratum, poll, precision and
    the five 32-bit words). *)
Definition plain_reply (frame : bytes) : Prop :=
  List.length frame = 48%nat
  /\ Z.shiftr (index frame 0) 6 = 0
  /\ slice frame 1 24 = repeat x00 23.

(** A datagram that [format_request] does not turn into [None]: one
    that is too short, or a client request. *)
Definition answerable (datagram : bytes) : bool :=
  (List.length datagram <? 48)%nat || (frame_mode datagram =? 3).

(** The originate value of the reply to an answerable datagram: the
    request's bytes 40-47, or 0 for a datagram too short to decode. *)
Definition echo_value (datagram : bytes) : Z :=
  if (List.length datagram <? 48)%nat then 0
  else from_bytes_big (slice datagram 40 48).

(** The answers a schedule calls for: for each answerable datagram that
    arrives, the value to echo and the address to send it to. *)
Fixpoint answers_due (evs : list event) : list (Z * Server.address) :=
  match evs with
  | [] => []
  | Arrive datagram sender _ :: evs' =>
      (if answerable datagram then [(echo_value datagram, sender)] else [])
      ++ answers_due evs'
  | Work _ :: evs' => answers_due evs'
  end.

(** The answers given: the originate field and the destination of each
    datagram sent. *)
Definition answers_sent (sent : list (bytes * Server.address))
    : list (Z * Server.address) :=
  map (fun e => (frame_originate (fst e), snd e)) sent.

(** The answers pending: the originate value and the address of each
    queued message. *)
Definition answers_queued
    (q : list (option SNTPMessage.t * Server.address))
    : list (Z * Server.address) :=
  flat_map (fun e => match fst e with
                     | Some m => [(SNTPMessage.originate_time m, snd e)]
                     | None => []
                     end) q.

(** The clock reading of an event gives a stamp that fits 64 bits under
    the given delay. *)
Definition in_era (delay : Z) (ev : event) : Prop :=
  match ev with
  | Arrive _ _ t => fits_u64 (ntp_stamp delay t)
  | Work t => fits_u64 (ntp_stamp delay t)
  end.

(** * Properties *)


(** ** Binary64 rounding *)

Lemma pow2_pos e : (0 < pow2 e)%Q.
Proof. apply Qpower_0_lt. reflexivity. Qed.

Lemma pow2_add a b : (pow2 (a + b) == pow2 a * pow2 b)%Q.
Proof. apply Qpower_plus. discriminate. Qed.

Lemma pow2_le a b : a <= b -> (pow2 a <= pow2 b)%Q.
Proof. intros H. apply Qpower_le_compat_l; [exact H | discriminate]. Qed.

Lemma pow2_lt a b : a < b -> (pow2 a < pow2 b)%Q.
Proof. intros H. apply Qpower_lt_compat_l; [exact H | reflexivity]. Qed.

Lemma pow2_lt_inv a b : (pow2 a < pow2 b)%Q -> a < b.
Proof. intros H. apply (Qpower_lt_compat_l_inv 2); [exact H | reflexivity]. Qed.

Lemma pow2_Z e : 0 <= e -> (pow2 e == inject_Z (2 ^ e))%Q.
Proof. intros H. unfold pow2. now rewrite Zpower_Qpower. Qed.

Lemma pow2_div a b : (pow2 (a - b) == pow2 a / pow2 b)%Q.
Proof.
  unfold Z.sub. rewrite pow2_add. unfold pow2. rewrite Qpower_opp. reflexivity.
Qed.

Lemma Qdiv_lt_cross (a b c d : Q) :
  (0 <= a)%Q -> (a < c)%Q -> (0 < d)%Q -> (d <= b)%Q -> (a / b < c / d)%Q.
Proof.
  intros Ha Hac Hd Hdb.
  assert (Hb : (0 < b)%Q) by (eapply Qlt_le_trans; eassumption).
  apply Qlt_shift_div_r; [exact Hb|].
  setoid_replace (c / d * b)%Q with (c * b / d)%Q
    by (field; intros E; rewrite E in Hd; discriminate).
  apply Qlt_shift_div_l; [exact Hd|]. nra.
Qed.

Lemma Qdiv_le_cross (a b c d : Q) :
  (0 <= a)%Q -> (a <= c)%Q -> (0 < d)%Q -> (d <= b)%Q -> (a / b <= c / d)%Q.
Proof.
  intros Ha Hac Hd Hdb.
  assert (Hb : (0 < b)%Q) by (eapply Qlt_le_trans; eassumption).
  apply Qle_shift_div_r; [exact Hb|].
  setoid_replace (c / d * b)%Q with (c * b / d)%Q
    by (field; intros E; rewrite E in Hd; discriminate).
  apply Qle_shift_div_l; [exact Hd|]. nra.
Qed.

Lemma ilog2_spec (x : Q) :
  (0 < x)%Q -> (pow2 (ilog2 x) <= x < pow2 (ilog2 x + 1))%Q.
Proof.
  intros Hx. destruct x as [n d].
  assert (Hn : 0 < n) by (unfold Qlt in Hx; cbn in Hx; lia).
  unfold ilog2. cbn [Qnum Qden].
  set (a := Z.log2 n). set (b := Z.log2 (Z.pos d)).
  assert (Ha : 0 <= a) by apply Z.log2_nonneg.
  assert (Hb : 0 <= b) by apply Z.log2_nonneg.
  destruct (Z.log2_spec n Hn) as [Ha1 Ha2]. fold a in Ha1, Ha2.
  destruct (Z.log2_spec (Z.pos d) eq_refl) as [Hb1 Hb2]. fold b in Hb1, Hb2.
  rewrite Zle_Qle in Ha1, Hb1. rewrite Zlt_Qlt in Ha2, Hb2.
  rewrite <- pow2_Z in Ha1, Hb1 by lia.
  replace (Z.succ a) with (a + 1) in Ha2 by lia.
  replace (Z.succ b) with (b + 1) in Hb2 by lia.
  rewrite <- pow2_Z in Ha2, Hb2 by lia.
  assert (Hlo : (pow2 (a - b - 1) <= n # d)%Q).
  { replace (a - b - 1) with (a - (b + 1)) by lia.
    rewrite pow2_div, (Qmake_Qdiv n d).
    apply Qdiv_le_cross.
    - apply Qlt_le_weak, pow2_pos.
    - exact Ha1.
    - reflexivity.
    - apply Qlt_le_weak, Hb2. }
  assert (Hhi : (n # d < pow2 (a - b + 1))%Q).
  { replace (a - b + 1) with (a + 1 - b) by lia.
    rewrite pow2_div, (Qmake_Qdiv n d).
    apply Qdiv_lt_cross.
    - unfold Qle. cbn. lia.
    - exact Ha2.
    - apply pow2_pos.
    - exact Hb1. }
  destruct (Qle_bool (pow2 (a - b)) (n # d)) eqn:E.
  - apply Qle_bool_iff in E. split; assumption.
  - split; [exact Hlo|].
    replace (a - b - 1 + 1) with (a - b) by lia.
    apply Qnot_le_lt. intros H. apply Qle_bool_iff in H. congruence.
Qed.

Lemma ilog2_unique (x : Q) (e : Z) :
  (pow2 e <= x < pow2 (e + 1))%Q -> ilog2 x = e.
Proof.
  intros [H1 H2].
  assert (Hx : (0 < x)%Q) by (eapply Qlt_le_trans; [apply pow2_pos | exact H1]).
  destruct (ilog2_spec x Hx) as [G1 G2].
  assert (ilog2 x < e + 1).
  { apply pow2_lt_inv. eapply Qle_lt_trans; eassumption. }
  assert (e < ilog2 x + 1).
  { apply pow2_lt_inv. eapply Qle_lt_trans; eassumption. }
  lia.
Qed.

Lemma ilog2_mono (x y : Q) : (0 < x)%Q -> (x <= y)%Q -> ilog2 x <= ilog2 y.
Proof.
  intros Hx Hxy.
  assert (Hy : (0 < y)%Q) by (eapply Qlt_le_trans; eassumption).
  destruct (ilog2_spec x Hx) as [G1 _].
  destruct (ilog2_spec y Hy) as [_ G2].
  assert (ilog2 x < ilog2 y + 1).
  { apply pow2_lt_inv. eapply Qle_lt_trans; [exact G1|].
    eapply Qle_lt_trans; eassumption. }
  lia.
Qed.

Lemma ilog2_Qeq (x y : Q) : (0 < x)%Q -> (x == y)%Q -> ilog2 x = ilog2 y.
Proof.
  intros Hx E. symmetry. apply ilog2_unique. rewrite <- E.
  now apply ilog2_spec.
Qed.

(** *** Rounding to the nearest integer *)

Lemma rne_bounds (r : Q) :
  Qfloor r <= round_half_even r <= Qfloor r + 1.
Proof.
  unfold round_half_even.
  destruct (r - inject_Z (Qfloor r) ?= 1 # 2)%Q;
    [destruct (Z.even (Qfloor r))| |]; lia.
Qed.

Lemma rne_Qeq (r r' : Q) : (r == r')%Q -> round_half_even r = round_half_even r'.
Proof.
  intros E. unfold round_half_even.
  rewrite (Qfloor_comp r r' E).
  assert (C : (r - inject_Z (Qfloor r') == r' - inject_Z (Qfloor r'))%Q)
    by (apply Qplus_comp; [exact E | reflexivity]).
  now rewrite (Qcompare_comp _ _ C (1 # 2) (1 # 2) (Qeq_refl _)).
Qed.

Lemma rne_Z (k : Z) : round_half_even (inject_Z k) = k.
Proof.
  unfold round_half_even. rewrite Qfloor_Z.
  destruct (Qcompare_spec (inject_Z k - inject_Z k) (1 # 2)) as [C|C|C];
    [exfalso | reflexivity | exfalso]; lra.
Qed.

Lemma rne_mono (r r' : Q) :
  (r <= r')%Q -> round_half_even r <= round_half_even r'.
Proof.
  intros H. pose proof (Qfloor_resp_le r r' H) as Hf.
  pose proof (rne_bounds r). pose proof (rne_bounds r').
  destruct (Z.eq_dec (Qfloor r) (Qfloor r')) as [E|E]; [|lia].
  unfold round_half_even in *. rewrite <- E in *.
  destruct (Qcompare_spec (r - inject_Z (Qfloor r)) (1 # 2)) as [C|C|C];
    destruct (Qcompare_spec (r' - inject_Z (Qfloor r)) (1 # 2)) as [C'|C'|C'];
    try lia; try (destruct (Z.even (Qfloor r)); lia); exfalso; lra.
Qed.

(** *** Rounding to a multiple of a power of two *)

Lemma pow2_neq0 (s : Z) : ~ (pow2 s == 0)%Q.
Proof. intros E. pose proof (pow2_pos s) as H. rewrite E in H. discriminate. Qed.

Lemma round_at_mono (s : Z) (x y : Q) :
  (x <= y)%Q -> (round_at s x <= round_at s y)%Q.
Proof.
  intros H. unfold round_at.
  apply Qmult_le_compat_r; [|apply Qlt_le_weak, pow2_pos].
  rewrite <- Zle_Qle. apply rne_mono.
  apply Qmult_le_compat_r; [exact H|].
  apply Qlt_le_weak, Qinv_lt_0_compat, pow2_pos.
Qed.

Lemma round_at_Qeq (s : Z) (x y : Q) :
  (x == y)%Q -> (round_at s x == round_at s y)%Q.
Proof.
  intros E. unfold round_at.
  rewrite (rne_Qeq (x / pow2 s) (y / pow2 s)); [reflexivity|].
  now rewrite E.
Qed.

Lemma round_at_exact (s k m : Z) :
  s <= k -> (round_at s (inject_Z m * pow2 k) == inject_Z m * pow2 k)%Q.
Proof.
  intros H. unfold round_at.
  assert (E : (inject_Z m * pow2 k / pow2 s == inject_Z (m * 2 ^ (k - s)))%Q).
  { rewrite inject_Z_mult, <- pow2_Z, pow2_div by lia.
    field. apply pow2_neq0. }
  rewrite (rne_Qeq _ _ E), rne_Z, inject_Z_mult, <- pow2_Z, pow2_div by lia.
  field. apply pow2_neq0.
Qed.

(** *** Rounding to 53 bits *)

Lemma round53_nonzero (x : Q) :
  ~ (x == 0)%Q -> round53 x = round_at (ilog2 (Qabs x) - 52) x.
Proof.
  intros H. unfold round53.
  destruct (Qeq_bool x 0) eqn:E; [|reflexivity].
  apply Qeq_bool_iff in E. contradiction.
Qed.

Lemma round53_0 (x : Q) : (x == 0)%Q -> round53 x = 0%Q.
Proof.
  intros H. unfold round53. apply Qeq_bool_iff in H. now rewrite H.
Qed.

Lemma scaled_bounds (x : Q) (e : Z) :
  (pow2 e <= x)%Q -> (x <= pow2 (e + 1))%Q ->
  (inject_Z (2 ^ 52) <= x / pow2 (e - 52) <= inject_Z (2 ^ 53))%Q.
Proof.
  intros H1 H2.
  assert (E1 : (inject_Z (2 ^ 52) == pow2 e / pow2 (e - 52))%Q).
  { rewrite <- pow2_Z, <- pow2_div by lia. now replace (e - (e - 52)) with 52 by lia. }
  assert (E2 : (inject_Z (2 ^ 53) == pow2 (e + 1) / pow2 (e - 52))%Q).
  { rewrite <- pow2_Z, <- pow2_div by lia.
    now replace (e + 1 - (e - 52)) with 53 by lia. }
  rewrite E1, E2. split;
    (apply Qmult_le_compat_r;
     [assumption | apply Qlt_le_weak, Qinv_lt_0_compat, pow2_pos]).
Qed.

Lemma round_at_bounds (x : Q) (e : Z) :
  (pow2 e <= x)%Q -> (x <= pow2 (e + 1))%Q ->
  (pow2 e <= round_at (e - 52) x <= pow2 (e + 1))%Q.
Proof.
  intros H1 H2. destruct (scaled_bounds x e H1 H2) as [B1 B2].
  apply rne_mono in B1, B2. rewrite rne_Z in B1, B2.
  rewrite Zle_Qle in B1, B2. unfold round_at.
  assert (E1 : (pow2 e == inject_Z (2 ^ 52) * pow2 (e - 52))%Q).
  { rewrite <- pow2_Z, <- pow2_add by lia. now replace (52 + (e - 52)) with e by lia. }
  assert (E2 : (pow2 (e + 1) == inject_Z (2 ^ 53) * pow2 (e - 52))%Q).
  { rewrite <- pow2_Z, <- pow2_add by lia.
    now replace (53 + (e - 52)) with (e + 1) by lia. }
  rewrite E1, E2. split;
    (apply Qmult_le_compat_r; [assumption | apply Qlt_le_weak, pow2_pos]).
Qed.

Lemma round_at_bounds_neg (x : Q) (e : Z) :
  (pow2 e <= - x)%Q -> (- x <= pow2 (e + 1))%Q ->
  (- pow2 (e + 1) <= round_at (e - 52) x <= - pow2 e)%Q.
Proof.
  intros H1 H2. destruct (scaled_bounds (- x) e H1 H2) as [B1 B2].
  assert (Ex : (x / pow2 (e - 52) == - (- x / pow2 (e - 52)))%Q)
    by (field; apply pow2_neq0).
  assert (C1 : (inject_Z (- 2 ^ 53) <= x / pow2 (e - 52))%Q)
    by (rewrite inject_Z_opp, Ex; lra).
  assert (C2 : (x / pow2 (e - 52) <= inject_Z (- 2 ^ 52))%Q)
    by (rewrite inject_Z_opp, Ex; lra).
  apply rne_mono in C1, C2. rewrite rne_Z in C1, C2.
  rewrite Zle_Qle in C1, C2. unfold round_at.
  assert (E1 : (- pow2 e == inject_Z (- 2 ^ 52) * pow2 (e - 52))%Q).
  { rewrite inject_Z_opp, <- pow2_Z by lia.
    setoid_replace (- pow2 52 * pow2 (e - 52))%Q
      with (- (pow2 52 * pow2 (e - 52)))%Q by ring.
    rewrite <- pow2_add. now replace (52 + (e - 52)) with e by lia. }
  assert (E2 : (- pow2 (e + 1) == inject_Z (- 2 ^ 53) * pow2 (e - 52))%Q).
  { rewrite inject_Z_opp, <- pow2_Z by lia.
    setoid_replace (- pow2 53 * pow2 (e - 52))%Q
      with (- (pow2 53 * pow2 (e - 52)))%Q by ring.
    rewrite <- pow2_add. now replace (53 + (e - 52)) with (e + 1) by lia. }
  rewrite E1, E2. split;
    (apply Qmult_le_compat_r; [assumption | apply Qlt_le_weak, pow2_pos]).
Qed.

Lemma round53_pos (x : Q) :
  (0 < x)%Q ->
  round53 x = round_at (ilog2 x - 52) x
  /\ (pow2 (ilog2 x) <= round53 x <= pow2 (ilog2 x + 1))%Q.
Proof.
  intros Hx.
  assert (Hn : ~ (x == 0)%Q) by (intros E; rewrite E in Hx; discriminate).
  assert (Ha : (Qabs x == x)%Q) by (apply Qabs_pos, Qlt_le_weak, Hx).
  assert (He : ilog2 (Qabs x) = ilog2 x).
  { apply ilog2_Qeq; [rewrite Ha; exact Hx | exact Ha]. }
  rewrite round53_nonzero, He by exact Hn.
  split; [reflexivity|].
  destruct (ilog2_spec x Hx) as [H1 H2].
  apply round_at_bounds; [exact H1 | apply Qlt_le_weak, H2].
Qed.

Lemma round53_neg (x : Q) :
  (x < 0)%Q ->
  round53 x = round_at (ilog2 (- x) - 52) x
  /\ (- pow2 (ilog2 (- x) + 1) <= round53 x <= - pow2 (ilog2 (- x)))%Q.
Proof.
  intros Hx.
  assert (Hn : ~ (x == 0)%Q) by (intros E; rewrite E in Hx; discriminate).
  assert (Hp : (0 < - x)%Q) by lra.
  assert (Ha : (Qabs x == - x)%Q) by (apply Qabs_neg, Qlt_le_weak, Hx).
  assert (He : ilog2 (Qabs x) = ilog2 (- x)).
  { apply ilog2_Qeq; [rewrite Ha; exact Hp | exact Ha]. }
  rewrite round53_nonzero, He by exact Hn.
  split; [reflexivity|].
  destruct (ilog2_spec (- x) Hp) as [H1 H2].
  apply round_at_bounds_neg; [exact H1 | apply Qlt_le_weak, H2].
Qed.

Lemma round53_sign_pos (x : Q) : (0 < x)%Q -> (0 < round53 x)%Q.
Proof.
  intros H. destruct (round53_pos x H) as [_ [B _]].
  eapply Qlt_le_trans; [apply pow2_pos | exact B].
Qed.

Lemma round53_sign_neg (x : Q) : (x < 0)%Q -> (round53 x < 0)%Q.
Proof.
  intros H. destruct (round53_neg x H) as [_ [_ B]].
  eapply Qle_lt_trans; [exact B|].
  pose proof (pow2_pos (ilog2 (- x))). lra.
Qed.

Lemma round53_mono (x y : Q) : (x <= y)%Q -> (round53 x <= round53 y)%Q.
Proof.
  intros H.
  destruct (Q_dec x 0) as [[Hx|Hx]|Hx]; destruct (Q_dec y 0) as [[Hy|Hy]|Hy];
    try (exfalso; lra).
  - (* both negative *)
    destruct (round53_neg x Hx) as [Ex [_ Bx]].
    destruct (round53_neg y Hy) as [Ey [By _]].
    assert (Hm : ilog2 (- y) <= ilog2 (- x)) by (apply ilog2_mono; lra).
    destruct (Z.eq_dec (ilog2 (- y)) (ilog2 (- x))) as [E|E].
    + rewrite Ex, Ey, E. now apply round_at_mono.
    + apply Qle_trans with (- pow2 (ilog2 (- x)))%Q; [exact Bx|].
      apply Qle_trans with (- pow2 (ilog2 (- y) + 1))%Q; [|exact By].
      apply Qopp_le_compat, pow2_le. lia.
  - apply Qlt_le_weak. apply Qlt_trans with 0%Q;
      [now apply round53_sign_neg | now apply round53_sign_pos].
  - rewrite (round53_0 y Hy). apply Qlt_le_weak, round53_sign_neg, Hx.
  - (* both positive *)
    destruct (round53_pos x Hx) as [Ex [_ Bx]].
    destruct (round53_pos y Hy) as [Ey [By _]].
    assert (Hm : ilog2 x <= ilog2 y) by (apply ilog2_mono; assumption).
    destruct (Z.eq_dec (ilog2 x) (ilog2 y)) as [E|E].
    + rewrite Ex, Ey, E. now apply round_at_mono.
    + apply Qle_trans with (pow2 (ilog2 x + 1)); [exact Bx|].
      apply Qle_trans with (pow2 (ilog2 y)); [|exact By].
      apply pow2_le. lia.
  - rewrite (round53_0 x Hx). apply Qlt_le_weak, round53_sign_pos, Hy.
  - rewrite (round53_0 x Hx), (round53_0 y Hy). apply Qle_refl.
Qed.

Lemma round53_Qeq (x y : Q) : (x == y)%Q -> (round53 x == round53 y)%Q.
Proof.
  intros E. apply Qle_antisym; apply round53_mono; rewrite E; apply Qle_refl.
Qed.

Lemma round53_exact (m k : Z) :
  Z.abs m < 2 ^ 53 ->
  (round53 (inject_Z m * pow2 k) == inject_Z m * pow2 k)%Q.
Proof.
  intros Hm. set (x := (inject_Z m * pow2 k)%Q).
  pose proof (pow2_pos k) as Hk.
  assert (Hb : forall n, 0 < n < 2 ^ 53 ->
            (0 < inject_Z n * pow2 k)%Q /\
            ilog2 (inject_Z n * pow2 k) - 52 <= k).
  { intros n Hn.
    assert (Hp : (0 < inject_Z n * pow2 k)%Q).
    { apply Qmult_lt_0_compat; [|exact Hk].
      change 0%Q with (inject_Z 0). rewrite <- Zlt_Qlt. lia. }
    split; [exact Hp|].
    destruct (ilog2_spec _ Hp) as [G _].
    assert (L : (inject_Z n * pow2 k < pow2 (53 + k))%Q).
    { rewrite pow2_add. rewrite (pow2_Z 53) by lia.
      apply Qmult_lt_compat_r; [exact Hk|]. rewrite <- Zlt_Qlt. lia. }
    assert (ilog2 (inject_Z n * pow2 k) < 53 + k).
    { apply pow2_lt_inv. eapply Qle_lt_trans; eassumption. }
    lia. }
  destruct (Z.lt_trichotomy m 0) as [Hneg|[H0|Hpos]].
  - destruct (Hb (- m)) as [Hp He]; [lia|].
    assert (Ex : (- x == inject_Z (- m) * pow2 k)%Q)
      by (unfold x; rewrite inject_Z_opp; ring).
    assert (Hx : (x < 0)%Q) by (rewrite <- Ex in Hp; lra).
    destruct (round53_neg x Hx) as [-> _].
    rewrite (ilog2_Qeq (- x) (inject_Z (- m) * pow2 k)) by (lra || exact Ex).
    apply round_at_exact. exact He.
  - subst m. rewrite round53_0; unfold x; ring.
  - destruct (Hb m) as [Hp He]; [lia|].
    destruct (round53_pos x Hp) as [-> _].
    apply round_at_exact. exact He.
Qed.

Lemma float_of_int_exact (z : Z) :
  Z.abs z < 2 ^ 53 -> (float_of_int z == inject_Z z)%Q.
Proof.
  intros H. unfold float_of_int.
  rewrite (round53_Qeq (inject_Z z) (inject_Z z * pow2 0))
    by (change (pow2 0) with 1%Q; ring).
  rewrite round53_exact by exact H. change (pow2 0) with 1%Q. ring.
Qed.

(** A value on the grid of [2^-21] below [2^32] is a binary64 value. *)
Lemma round53_era_exact (m : Z) :
  Z.abs m < 2 ^ 53 ->
  (round53 (inject_Z m / inject_Z (2 ^ 21)) == inject_Z m / inject_Z (2 ^ 21))%Q.
Proof.
  intros H.
  assert (E : (inject_Z m / inject_Z (2 ^ 21) == inject_Z m * pow2 (- 21))%Q)
    by reflexivity.
  rewrite (round53_Qeq _ _ E), round53_exact by exact H. now rewrite E.
Qed.

(** Rounding a value of the era gives a multiple of [2^-21]. *)
Lemma round53_era (x : Q) :
  (inject_Z (2 ^ 31) <= x)%Q -> (x < inject_Z (2 ^ 32))%Q ->
  exists M, 2 ^ 52 <= M <= 2 ^ 53
            /\ (round53 x == inject_Z M / inject_Z (2 ^ 21))%Q.
Proof.
  intros H1 H2.
  assert (He : ilog2 x = 31).
  { apply ilog2_unique. rewrite !pow2_Z by lia. split; assumption. }
  assert (Hx : (0 < x)%Q) by (eapply Qlt_le_trans; [|exact H1]; reflexivity).
  destruct (round53_pos x Hx) as [-> _]. rewrite He.
  destruct (scaled_bounds x 31) as [B1 B2].
  { rewrite pow2_Z by lia. exact H1. }
  { rewrite pow2_Z by lia. apply Qlt_le_weak, H2. }
  apply rne_mono in B1, B2. rewrite rne_Z in B1, B2.
  exists (round_half_even (x / pow2 (31 - 52))). split; [lia|].
  unfold round_at. reflexivity.
Qed.

(** ** Bytes and big-endian integers *)

Lemma byte_to_Z_range (x : byte) : 0 <= byte_to_Z x < 256.
Proof.
  unfold byte_to_Z. pose proof (Byte.to_N_bounded x) as H. lia.
Qed.

Lemma byte_to_of_Z (z : Z) : byte_to_Z (byte_of_Z z) = z mod 256.
Proof.
  unfold byte_to_Z, byte_of_Z.
  assert (Hr : 0 <= z mod 256 < 256) by (apply Z.mod_pos_bound; lia).
  destruct (Byte.of_N (Z.to_N (z mod 256))) as [x|] eqn:E.
  - apply Byte.to_of_N in E. rewrite E. lia.
  - apply Byte.of_N_None_iff in E. lia.
Qed.

Lemma length_to_bytes_big (n : nat) (z : Z) :
  List.length (to_bytes_big n z) = n.
Proof.
  induction n as [|k IH]; simpl; [reflexivity | now rewrite IH].
Qed.

Lemma fold_bytes_acc (l : bytes) (acc : Z) :
  fold_left (fun a x => a * 256 + byte_to_Z x) l acc =
  acc * 256 ^ Z.of_nat (List.length l) + from_bytes_big l.
Proof.
  unfold from_bytes_big. revert acc.
  induction l as [|x l IH]; intros acc.
  - simpl. lia.
  - cbn [fold_left List.length]. rewrite IH, (IH (0 * 256 + byte_to_Z x)).
    rewrite Nat2Z.inj_succ, Z.pow_succ_r by lia. ring.
Qed.

Lemma from_bytes_big_cons (x : byte) (l : bytes) :
  from_bytes_big (x :: l) =
  byte_to_Z x * 256 ^ Z.of_nat (List.length l) + from_bytes_big l.
Proof.
  unfold from_bytes_big at 1. cbn [fold_left]. rewrite fold_bytes_acc. ring.
Qed.

Lemma from_bytes_big_range (l : bytes) :
  0 <= from_bytes_big l < 256 ^ Z.of_nat (List.length l).
Proof.
  induction l as [|x l IH].
  - unfold from_bytes_big. simpl. lia.
  - rewrite from_bytes_big_cons. cbn [List.length].
    rewrite Nat2Z.inj_succ, Z.pow_succ_r by lia.
    pose proof (byte_to_Z_range x). nia.
Qed.

Lemma from_to_bytes_big (n : nat) (z : Z) :
  from_bytes_big (to_bytes_big n z) = z mod 2 ^ (8 * Z.of_nat n).
Proof.
  induction n as [|k IH].
  - simpl. now rewrite Z.mod_1_r.
  - cbn [to_bytes_big]. rewrite from_bytes_big_cons, IH, byte_to_of_Z.
    rewrite length_to_bytes_big, Z.shiftr_div_pow2 by lia.
    replace (256 ^ Z.of_nat k) with (2 ^ (8 * Z.of_nat k))
      by (rewrite Z.pow_mul_r by lia; reflexivity).
    replace (8 * Z.of_nat (S k)) with (8 * Z.of_nat k + 8) by lia.
    rewrite Z.pow_add_r by lia. change (2 ^ 8) with 256.
    assert (Hp : 0 < 2 ^ (8 * Z.of_nat k)) by (apply Z.pow_pos_nonneg; lia).
    rewrite Z.rem_mul_r by lia. ring.
Qed.

Lemma from_to_bytes_u64 (v : Z) :
  fits_u64 v -> from_bytes_big (to_bytes_big 8 v) = v.
Proof.
  intros Hv. rewrite from_to_bytes_big. apply Z.mod_small. exact Hv.
Qed.

Lemma slice_length_le (data : bytes) (lo hi : nat) :
  (List.length (slice data lo hi) <= hi - lo)%nat.
Proof.
  unfold slice. rewrite length_firstn. lia.
Qed.

Lemma slice_app (a x c : bytes) (lo hi : nat) :
  List.length a = lo -> List.length x = (hi - lo)%nat ->
  slice (a ++ x ++ c) lo hi = x.
Proof.
  intros Ha Hx. unfold slice.
  rewrite skipn_app, Ha, Nat.sub_diag, skipn_all2 by lia.
  cbn [skipn app]. rewrite <- Hx, firstn_app, Nat.sub_diag, firstn_all.
  cbn [firstn]. now rewrite app_nil_r.
Qed.

Lemma slice_recvfrom (datagram : bytes) (n lo hi : nat) :
  (hi <= n)%nat ->
  slice (Server.recvfrom n datagram) lo hi = slice datagram lo hi.
Proof.
  intros Hn. unfold slice, Server.recvfrom.
  rewrite skipn_firstn_comm, firstn_firstn. f_equal. lia.
Qed.

Lemma index_recvfrom (datagram : bytes) (n i : nat) :
  (i < n)%nat -> index (Server.recvfrom n datagram) i = index datagram i.
Proof.
  intros Hi. unfold index, Server.recvfrom. f_equal.
  revert n i Hi. induction datagram as [|x l IH]; intros n i Hi.
  - now rewrite firstn_nil.
  - destruct n as [|n]; [lia|]. destruct i as [|i]; [reflexivity|].
    cbn [firstn nth]. apply IH. lia.
Qed.

Lemma length_recvfrom (datagram : bytes) (n : nat) :
  List.length (Server.recvfrom n datagram) = Nat.min n (List.length datagram).
Proof. unfold Server.recvfrom. apply length_firstn. Qed.

(** ** Truncation toward zero *)

Lemma py_int_floor (x : Q) : (0 <= x)%Q -> py_int x = Qfloor x.
Proof.
  destruct x as [n d]. unfold Qle, py_int, Qfloor. cbn [Qnum Qden].
  intros H. apply Z.quot_div_nonneg; lia.
Qed.

Lemma py_int_ceiling (x : Q) : (x <= 0)%Q -> py_int x = Qceiling x.
Proof.
  destruct x as [n d]. unfold Qle, py_int, Qceiling, Qfloor, Qopp.
  cbn [Qnum Qden]. intros H.
  rewrite <- (Z.opp_involutive n) at 1.
  rewrite Z.quot_opp_l by lia. f_equal.
  apply Z.quot_div_nonneg; lia.
Qed.

Lemma py_int_inject_Z (z : Z) : py_int (inject_Z z) = z.
Proof. unfold py_int, inject_Z. cbn [Qnum Qden]. apply Z.quot_1_r. Qed.

Lemma py_int_Qeq (x y : Q) : (x == y)%Q -> py_int x = py_int y.
Proof.
  intros E. destruct (Qlt_le_dec x 0) as [Hx|Hx].
  - rewrite !py_int_ceiling by (rewrite <- ?E; apply Qlt_le_weak; exact Hx).
    unfold Qceiling. now rewrite E.
  - rewrite !py_int_floor by (rewrite <- ?E; exact Hx). now rewrite E.
Qed.

Lemma py_int_sign_pos (x : Q) : (0 <= x)%Q -> 0 <= py_int x.
Proof.
  intros H. rewrite py_int_floor by exact H.
  change 0 with (Qfloor 0). now apply Qfloor_resp_le.
Qed.

Lemma py_int_sign_neg (x : Q) : (x <= 0)%Q -> py_int x <= 0.
Proof.
  intros H. rewrite py_int_ceiling by exact H.
  change 0 with (Qceiling 0). now apply Qceiling_resp_le.
Qed.

Lemma py_int_mono (x y : Q) : (x <= y)%Q -> py_int x <= py_int y.
Proof.
  intros H. destruct (Qlt_le_dec x 0) as [Hx|Hx].
  - destruct (Qlt_le_dec y 0) as [Hy|Hy].
    + rewrite !py_int_ceiling by (apply Qlt_le_weak; assumption).
      now apply Qceiling_resp_le.
    + apply Z.le_trans with 0.
      * apply py_int_sign_neg, Qlt_le_weak, Hx.
      * apply py_int_sign_pos, Hy.
  - rewrite (py_int_floor x) by exact Hx.
    rewrite (py_int_floor y) by (apply Qle_trans with x; assumption).
    now apply Qfloor_resp_le.
Qed.

Lemma py_int_above (x : Q) : (x - 1 < inject_Z (py_int x))%Q.
Proof.
  destruct (Qlt_le_dec x 0) as [Hx|Hx].
  - rewrite py_int_ceiling by (apply Qlt_le_weak; exact Hx).
    pose proof (Qle_ceiling x). lra.
  - rewrite py_int_floor by exact Hx.
    pose proof (Qlt_floor x) as H. rewrite inject_Z_plus in H.
    change (inject_Z 1) with 1%Q in H. lra.
Qed.

Lemma py_int_below (x : Q) : (inject_Z (py_int x) < x + 1)%Q.
Proof.
  destruct (Qlt_le_dec x 0) as [Hx|Hx].
  - rewrite py_int_ceiling by (apply Qlt_le_weak; exact Hx).
    pose proof (Qceiling_lt x) as H. unfold Z.sub in H.
    rewrite inject_Z_plus, inject_Z_opp in H.
    change (inject_Z 1) with 1%Q in H. lra.
  - rewrite py_int_floor by exact Hx.
    pose proof (Qfloor_le x). lra.
Qed.

(** ** [format_time] *)

Lemma two32_pos : (0 < inject_Z (2 ^ 32))%Q.
Proof. reflexivity. Qed.

Lemma format_time_mono (x y : Q) :
  (x <= y)%Q -> SNTPMessage.format_time x <= SNTPMessage.format_time y.
Proof.
  intros H. unfold SNTPMessage.format_time. apply py_int_mono.
  apply Qmult_le_compat_r; [exact H | apply Qlt_le_weak, two32_pos].
Qed.

Lemma format_time_Qeq (x y : Q) :
  (x == y)%Q -> SNTPMessage.format_time x = SNTPMessage.format_time y.
Proof.
  intros E. unfold SNTPMessage.format_time. apply py_int_Qeq. now rewrite E.
Qed.

Lemma format_time_inject_Z (z : Z) :
  SNTPMessage.format_time (inject_Z z) = z * 2 ^ 32.
Proof.
  unfold SNTPMessage.format_time.
  rewrite <- inject_Z_mult. apply py_int_inject_Z.
Qed.

Lemma format_time_nonneg (x : Q) :
  (0 <= x)%Q -> 0 <= SNTPMessage.format_time x.
Proof.
  intros H. change 0 with (0 * 2 ^ 32).
  rewrite <- format_time_inject_Z. now apply format_time_mono.
Qed.

Lemma format_time_lt_u64 (x : Q) :
  (x < inject_Z (2 ^ 32))%Q -> SNTPMessage.format_time x < 2 ^ 64.
Proof.
  intros H. destruct (Qlt_le_dec x 0) as [Hx|Hx].
  - apply Z.le_lt_trans with (SNTPMessage.format_time 0).
    + apply format_time_mono, Qlt_le_weak, Hx.
    + reflexivity.
  - unfold SNTPMessage.format_time.
    assert (Hp : (0 <= x * inject_Z (2 ^ 32))%Q).
    { apply Qmult_le_0_compat; [exact Hx | apply Qlt_le_weak, two32_pos]. }
    rewrite py_int_floor by exact Hp.
    assert (Hm : (x * inject_Z (2 ^ 32) < inject_Z (2 ^ 64))%Q).
    { change (inject_Z (2 ^ 64)) with (inject_Z (2 ^ 32) * inject_Z (2 ^ 32))%Q.
      apply Qmult_lt_compat_r; [apply two32_pos | exact H]. }
    rewrite Zlt_Qlt.
    apply Qle_lt_trans with (x * inject_Z (2 ^ 32))%Q;
      [apply Qfloor_le | exact Hm].
Qed.

Lemma format_time_fits (x : Q) :
  (0 <= x)%Q -> (x < inject_Z (2 ^ 32))%Q ->
  fits_u64 (SNTPMessage.format_time x).
Proof.
  intros H0 H1. split;
    [now apply format_time_nonneg | now apply format_time_lt_u64].
Qed.

(** ** [struct.pack] on the reply format *)

Lemma parse_reply_format :
  Struct.parse_format ">3Bb5I3Q" =
  Some [Struct.fmt_B; Struct.fmt_B; Struct.fmt_B; Struct.fmt_b;
        Struct.fmt_I; Struct.fmt_I; Struct.fmt_I; Struct.fmt_I; Struct.fmt_I;
        Struct.fmt_Q; Struct.fmt_Q; Struct.fmt_Q].
Proof. reflexivity. Qed.

Lemma in_range_Q_fits (v : Z) :
  Struct.in_range Struct.fmt_Q v = true <-> fits_u64 v.
Proof.
  unfold Struct.in_range, fits_u64.
  rewrite andb_true_iff, Z.leb_le, Z.ltb_lt. tauto.
Qed.

Lemma pack_reply_format (f s p pr o r t : Z) :
  Struct.pack ">3Bb5I3Q" [f; s; p; pr; 0; 0; 0; 0; 0; o; r; t] =
  if Struct.in_range Struct.fmt_B f && Struct.in_range Struct.fmt_B s
     && Struct.in_range Struct.fmt_B p && Struct.in_range Struct.fmt_b pr
     && Struct.in_range Struct.fmt_Q o && Struct.in_range Struct.fmt_Q r
     && Struct.in_range Struct.fmt_Q t
  then Ok (frame_layout f s p pr o r t)
  else Raise struct_error.
Proof.
  unfold Struct.pack. rewrite parse_reply_format.
  cbn [Struct.pack_items]. unfold Struct.pack_one.
  change (Struct.in_range Struct.fmt_I 0) with true.
  destruct (Struct.in_range Struct.fmt_B f); [|reflexivity].
  destruct (Struct.in_range Struct.fmt_B s); [|reflexivity].
  destruct (Struct.in_range Struct.fmt_B p); [|reflexivity].
  destruct (Struct.in_range Struct.fmt_b pr); [|reflexivity].
  destruct (Struct.in_range Struct.fmt_Q o); [|reflexivity].
  destruct (Struct.in_range Struct.fmt_Q r); [|reflexivity].
  destruct (Struct.in_range Struct.fmt_Q t); [|reflexivity].
  cbn [bind andb Struct.size]. unfold frame_layout, frame_header.
  now rewrite <- !app_assoc.
Qed.

Lemma pack_single_Q (v : Z) :
  Struct.pack ">Q" [v] =
  if Struct.in_range Struct.fmt_Q v then Ok (to_bytes_big 8 v)
  else Raise struct_error.
Proof.
  unfold Struct.pack.
  change (Struct.parse_format ">Q") with (Some [Struct.fmt_Q]).
  cbn [Struct.pack_items]. unfold Struct.pack_one.
  destruct (Struct.in_range Struct.fmt_Q v); cbn [bind Struct.size];
    now rewrite ?app_nil_r.
Qed.

Lemma get_reply_spec (self : SNTPMessage.t) (now : Q) :
  SNTPMessage.get_reply self now =
  if packable self now then Ok (reply_frame self now) else Raise struct_error.
Proof. unfold SNTPMessage.get_reply. apply pack_reply_format. Qed.

(** ** Reading the frame back *)

Section FrameLayout.

Variables f s p pr o r t : Z.

Lemma length_frame_header :
  List.length (frame_header f s p pr) = 24%nat.
Proof. reflexivity. Qed.

Lemma length_frame_layout :
  List.length (frame_layout f s p pr o r t) = 48%nat.
Proof.
  unfold frame_layout.
  now rewrite !length_app, length_frame_header, !length_to_bytes_big.
Qed.

Lemma index_frame_layout_0 :
  index (frame_layout f s p pr o r t) 0 = f mod 256.
Proof.
  unfold index, frame_layout, frame_header. cbn [to_bytes_big app nth].
  rewrite byte_to_of_Z. reflexivity.
Qed.

Lemma slice_frame_zero_words :
  slice (frame_layout f s p pr o r t) 4 24 = repeat x00 20.
Proof. reflexivity. Qed.

Lemma slice_frame_originate :
  slice (frame_layout f s p pr o r t) 24 32 = to_bytes_big 8 o.
Proof.
  unfold frame_layout.
  apply slice_app; [reflexivity | apply length_to_bytes_big].
Qed.

Lemma slice_frame_receive :
  slice (frame_layout f s p pr o r t) 32 40 = to_bytes_big 8 r.
Proof.
  unfold frame_layout. rewrite (app_assoc (frame_header f s p pr)).
  apply slice_app; [| apply length_to_bytes_big].
  now rewrite length_app, length_frame_header, length_to_bytes_big.
Qed.

Lemma slice_frame_transmit :
  slice (frame_layout f s p pr o r t) 40 48 = to_bytes_big 8 t.
Proof.
  unfold frame_layout.
  rewrite <- (app_nil_r (to_bytes_big 8 t)) at 1.
  rewrite (app_assoc (to_bytes_big 8 o)), (app_assoc (frame_header f s p pr)).
  apply slice_app; [| apply length_to_bytes_big].
  now rewrite !length_app, length_frame_header, !length_to_bytes_big.
Qed.

Lemma frame_originate_layout :
  fits_u64 o -> frame_originate (frame_layout f s p pr o r t) = o.
Proof.
  intros H. unfold frame_originate.
  rewrite slice_frame_originate. now apply from_to_bytes_u64.
Qed.

Lemma frame_receive_layout :
  fits_u64 r -> frame_receive (frame_layout f s p pr o r t) = r.
Proof.
  intros H. unfold frame_receive.
  rewrite slice_frame_receive. now apply from_to_bytes_u64.
Qed.

Lemma frame_transmit_layout :
  fits_u64 t -> frame_transmit (frame_layout f s p pr o r t) = t.
Proof.
  intros H. unfold frame_transmit.
  rewrite slice_frame_transmit. now apply from_to_bytes_u64.
Qed.

End FrameLayout.

(** ** Decoding a datagram *)

Lemma format_request_short (data : bytes) (now : Q) :
  (List.length data < 48)%nat ->
  Server.format_request data now = Some (SNTPMessage.init_default false).
Proof.
  intros H. unfold Server.format_request.
  apply Nat.ltb_lt in H. now rewrite H.
Qed.

Lemma format_request_other_mode (data : bytes) (now : Q) :
  (48 <= List.length data)%nat -> frame_mode data <> 3 ->
  Server.format_request data now = None.
Proof.
  intros H Hm. unfold Server.format_request.
  apply Nat.ltb_ge in H. rewrite H.
  apply Z.eqb_neq in Hm. unfold frame_mode in Hm. now rewrite Hm.
Qed.

Lemma format_request_client (data : bytes) (now : Q) :
  (48 <= List.length data)%nat -> frame_mode data = 3 ->
  Server.format_request data now =
  Some (SNTPMessage.init true (frame_version data) 4
          (from_bytes_big (slice data 40 48)) (add_int (Float now) TIME_OFFSET)).
Proof.
  intros H Hm. unfold Server.format_request.
  apply Nat.ltb_ge in H. rewrite H.
  apply Z.eqb_eq in Hm. unfold frame_mode in Hm. now rewrite Hm.
Qed.

Lemma recvfrom_long (datagram : bytes) :
  (48 <= List.length datagram)%nat ->
  (48 <= List.length (Server.recvfrom 1024 datagram))%nat.
Proof. intros H. rewrite length_recvfrom. lia. Qed.

Lemma recvfrom_short (datagram : bytes) :
  (List.length datagram < 48)%nat ->
  (List.length (Server.recvfrom 1024 datagram) < 48)%nat.
Proof. intros H. rewrite length_recvfrom. lia. Qed.

Create HintDb sntp.
#[local] Hint Resolve recvfrom_long recvfrom_short : sntp.

Lemma frame_mode_recvfrom (datagram : bytes) :
  frame_mode (Server.recvfrom 1024 datagram) = frame_mode datagram.
Proof. unfold frame_mode. rewrite index_recvfrom by lia. reflexivity. Qed.

Lemma frame_version_recvfrom (datagram : bytes) :
  frame_version (Server.recvfrom 1024 datagram) = frame_version datagram.
Proof. unfold frame_version. rewrite index_recvfrom by lia. reflexivity. Qed.

Lemma originate_fits (data : bytes) :
  fits_u64 (from_bytes_big (slice data 40 48)).
Proof.
  pose proof (from_bytes_big_range (slice data 40 48)) as [H0 H1].
  pose proof (slice_length_le data 40 48) as Hl.
  split; [exact H0|].
  eapply Z.lt_le_trans; [exact H1|].
  change (2 ^ 64) with (256 ^ Z.of_nat 8).
  apply Z.pow_le_mono_r; lia.
Qed.

(** The first byte of a reply to a client request: leap indicator 0,
    the request's version, mode 4. *)
Lemma first_byte_client (data : bytes) (o : Z) (rt : number) :
  let m := SNTPMessage.init true (frame_version data) 4 o rt in
  Struct.in_range Struct.fmt_B (SNTPMessage.first_byte m) = true
  /\ Z.land (SNTPMessage.first_byte m mod 256) 7 = 4
  /\ Z.shiftr (Z.land (SNTPMessage.first_byte m mod 256) 56) 3
     = frame_version data.
Proof.
  unfold SNTPMessage.first_byte, SNTPMessage.init, frame_version, index.
  cbn [SNTPMessage.leap_indicator SNTPMessage.version SNTPMessage.mode].
  destruct (nth 0 data x00); repeat split; reflexivity.
Qed.

(** ** One worker iteration *)

Lemma reply_to_request_entry (self : Server.t) (m : SNTPMessage.t)
    (a : Server.address) (rest : list (option SNTPMessage.t * Server.address))
    (now : Q) :
  Server.requests self = (Some m, a) :: rest ->
  let m' := SNTPMessage.set_time_offset m (Server.time_delay self) in
  Server.reply_to_request self now =
  if packable m' now then
    (Server.mk (Server.port self) (Server.time_delay self) rest
       (Server.sent self ++ [(reply_frame m' now, a)]), Ok tt)
  else
    (Server.mk (Server.port self) (Server.time_delay self) rest
       (Server.sent self), Raise struct_error).
Proof.
  intros Hq m'. unfold Server.reply_to_request. rewrite Hq.
  fold m'. rewrite get_reply_spec. now destruct (packable m' now).
Qed.

Lemma reply_to_request_none (self : Server.t) (a : Server.address)
    (rest : list (option SNTPMessage.t * Server.address)) (now : Q) :
  Server.requests self = (None, a) :: rest ->
  Server.reply_to_request self now =
  (Server.mk (Server.port self) (Server.time_delay self) rest
     (Server.sent self), Ok tt).
Proof.
  intros Hq. unfold Server.reply_to_request. now rewrite Hq.
Qed.

(** ** Serving one datagram *)

Lemma packable_init (c : bool) (v md o : Z) (rt : number) (delay : Z)
    (now : Q) :
  Struct.in_range Struct.fmt_B
    (SNTPMessage.first_byte (SNTPMessage.init c v md o rt)) = true ->
  fits_u64 o ->
  packable (SNTPMessage.set_time_offset (SNTPMessage.init c v md o rt) delay)
    now =
  Struct.in_range Struct.fmt_Q
    (SNTPMessage.format_time (number_value (add_int rt delay)))
  && Struct.in_range Struct.fmt_Q (ntp_stamp delay now).
Proof.
  intros Hf Ho. apply in_range_Q_fits in Ho.
  unfold packable, SNTPMessage.reply_receive_time,
    SNTPMessage.reply_transmit_time, ntp_stamp.
  change (SNTPMessage.first_byte
            (SNTPMessage.set_time_offset (SNTPMessage.init c v md o rt) delay))
    with (SNTPMessage.first_byte (SNTPMessage.init c v md o rt)).
  rewrite Hf.
  cbn [SNTPMessage.set_time_offset SNTPMessage.init SNTPMessage.stratum
       SNTPMessage.poll SNTPMessage.precision SNTPMessage.originate_time
       SNTPMessage.receive_time SNTPMessage.time_offset].
  rewrite Ho. reflexivity.
Qed.

Lemma reply_frame_init (c : bool) (v md o : Z) (rt : number) (delay : Z)
    (now : Q) :
  reply_frame (SNTPMessage.set_time_offset (SNTPMessage.init c v md o rt) delay)
    now =
  frame_layout (SNTPMessage.first_byte (SNTPMessage.init c v md o rt)) 0 0 0 o
    (SNTPMessage.format_time (number_value (add_int rt delay)))
    (ntp_stamp delay now).
Proof. reflexivity. Qed.

(** A client request, served: what the worker does with the entry the
    receiver queued for it. *)
Lemma serve_one_client (srv : Server.t) (datagram : bytes)
    (sender : Server.address) (t_recv t_send : Q) :
  Server.requests srv = [] ->
  (48 <= List.length datagram)%nat ->
  frame_mode datagram = 3 ->
  let delay := Server.time_delay srv in
  let m := SNTPMessage.init true (frame_version datagram) 4
             (from_bytes_big (slice datagram 40 48))
             (add_int (Float t_recv) TIME_OFFSET) in
  serve_one srv datagram sender t_recv t_send =
  if Struct.in_range Struct.fmt_Q (ntp_stamp delay t_recv)
     && Struct.in_range Struct.fmt_Q (ntp_stamp delay t_send)
  then
    (Server.mk (Server.port srv) delay []
       (Server.sent srv
        ++ [(frame_layout (SNTPMessage.first_byte m) 0 0 0
               (from_bytes_big (slice datagram 40 48))
               (ntp_stamp delay t_recv) (ntp_stamp delay t_send), sender)]),
     Ok tt)
  else
    (Server.mk (Server.port srv) delay [] (Server.sent srv),
     Raise struct_error).
Proof.
  intros Hq Hlen Hmode delay m.
  unfold serve_one.
  erewrite reply_to_request_entry.
  2:{ unfold Server.receive_request. cbn [Server.requests].
      rewrite Hq. cbn [app].
      rewrite format_request_client
        by (rewrite ?frame_mode_recvfrom; auto with sntp).
      rewrite frame_version_recvfrom, slice_recvfrom by lia. reflexivity. }
  cbn [Server.receive_request Server.time_delay Server.port Server.sent].
  fold delay. unfold m.
  rewrite packable_init, reply_frame_init;
    [reflexivity | apply first_byte_client | apply originate_fits].
Qed.

(** A datagram too short to decode, served. *)
Lemma serve_one_short (srv : Server.t) (datagram : bytes)
    (sender : Server.address) (t_recv t_send : Q) :
  Server.requests srv = [] ->
  (List.length datagram < 48)%nat ->
  let delay := Server.time_delay srv in
  serve_one srv datagram sender t_recv t_send =
  if Struct.in_range Struct.fmt_Q (delay * 2 ^ 32)
     && Struct.in_range Struct.fmt_Q (ntp_stamp delay t_send)
  then
    (Server.mk (Server.port srv) delay []
       (Server.sent srv
        ++ [(frame_layout 27 0 0 0 0 (delay * 2 ^ 32)
               (ntp_stamp delay t_send), sender)]),
     Ok tt)
  else
    (Server.mk (Server.port srv) delay [] (Server.sent srv),
     Raise struct_error).
Proof.
  intros Hq Hlen delay.
  unfold serve_one.
  erewrite reply_to_request_entry.
  2:{ unfold Server.receive_request. cbn [Server.requests].
      rewrite Hq. cbn [app].
      rewrite format_request_short by auto with sntp.
      reflexivity. }
  cbn [Server.receive_request Server.time_delay Server.port Server.sent].
  fold delay. unfold SNTPMessage.init_default.
  rewrite packable_init, reply_frame_init;
    [ | reflexivity | split; reflexivity ].
  cbn [add_int number_value Z.add].
  rewrite format_time_inject_Z. reflexivity.
Qed.

(** A datagram with another mode, served: nothing is sent. *)
Lemma serve_one_other_mode (srv : Server.t) (datagram : bytes)
    (sender : Server.address) (t_recv t_send : Q) :
  Server.requests srv = [] ->
  (48 <= List.length datagram)%nat ->
  frame_mode datagram <> 3 ->
  serve_one srv datagram sender t_recv t_send =
  (Server.mk (Server.port srv) (Server.time_delay srv) [] (Server.sent srv),
   Ok tt).
Proof.
  intros Hq Hlen Hmode. unfold serve_one.
  erewrite reply_to_request_none; [reflexivity|].
  unfold Server.receive_request. cbn [Server.requests].
  rewrite Hq. cbn [app].
  rewrite format_request_other_mode
    by (rewrite ?frame_mode_recvfrom; auto with sntp).
  reflexivity.
Qed.

(** ** Schedules of datagrams with other modes *)

Lemma step_other_mode (srv : Server.t) (ev : event) :
  other_mode_arrival ev ->
  Forall (fun e => fst e = None) (Server.requests srv) ->
  Forall (fun e => fst e = None) (Server.requests (step srv ev))
  /\ Server.sent (step srv ev) = Server.sent srv.
Proof.
  intros Hev Hq. destruct ev as [datagram sender now | now].
  - destruct Hev as [Hlen Hmode]. cbn [step].
    unfold Server.receive_request. cbn [Server.requests Server.sent].
    split; [|reflexivity].
    apply Forall_app. split; [exact Hq|].
    constructor; [|constructor]. cbn [fst].
    apply format_request_other_mode;
      [now apply recvfrom_long | now rewrite frame_mode_recvfrom].
  - cbn [step]. destruct (Server.requests srv) as [|[m a] rest] eqn:E.
    + unfold Server.reply_to_request. rewrite E. cbn [fst].
      rewrite E. split; [constructor | reflexivity].
    + inversion Hq as [|? ? Hm Hrest]; subst. cbn [fst] in Hm. subst m.
      rewrite (reply_to_request_none srv a rest now E).
      cbn [fst Server.requests Server.sent]. split; [exact Hrest | reflexivity].
Qed.

Lemma run_other_mode (evs : list event) (srv : Server.t) :
  Forall other_mode_arrival evs ->
  Forall (fun e => fst e = None) (Server.requests srv) ->
  Server.sent (run srv evs) = Server.sent srv.
Proof.
  unfold run. revert srv.
  induction evs as [|ev evs IH]; intros srv Hevs Hq; [reflexivity|].
  inversion Hevs as [|? ? Hev Hrest]; subst.
  destruct (step_other_mode srv ev Hev Hq) as [Hq' Hs'].
  cbn [fold_left]. rewrite IH by assumption. exact Hs'.
Qed.

(** ** Stamps *)

(** Decoding a stamp (dividing it by [2^32]) gives back the seconds
    value to within one unit of [2^-32] seconds. *)
Lemma format_time_within_unit (x : Q) :
  (Qabs (inject_Z (SNTPMessage.format_time x) / inject_Z (2 ^ 32) - x)
   < 1 / inject_Z (2 ^ 32))%Q.
Proof.
  unfold SNTPMessage.format_time.
  pose proof (py_int_above (x * inject_Z (2 ^ 32))) as Ha.
  pose proof (py_int_below (x * inject_Z (2 ^ 32))) as Hb.
  revert Ha Hb. generalize (inject_Z (py_int (x * inject_Z (2 ^ 32)))).
  intros p. change (inject_Z (2 ^ 32)) with (4294967296 # 1)%Q.
  intros Ha Hb.
  setoid_replace (p / (4294967296 # 1))%Q with (p * (1 # 4294967296))%Q
    by reflexivity.
  setoid_replace (1 / (4294967296 # 1))%Q with (1 # 4294967296)%Q
    by reflexivity.
  apply Qabs_Qlt_condition. split; lra.
Qed.

Lemma fadd_mono_l (x y z : Q) : (x <= y)%Q -> (fadd x z <= fadd y z)%Q.
Proof.
  intros H. unfold fadd. apply round53_mono. now apply Qplus_le_l.
Qed.

Lemma ntp_stamp_mono (delay : Z) (t1 t2 : Q) :
  (t1 <= t2)%Q -> ntp_stamp delay t1 <= ntp_stamp delay t2.
Proof.
  intros H. unfold ntp_stamp. apply format_time_mono.
  cbn [add_int number_value]. now do 2 apply fadd_mono_l.
Qed.

Lemma receive_time_short (delay : Z) :
  SNTPMessage.reply_receive_time
    (SNTPMessage.set_time_offset (SNTPMessage.init_default false) delay)
  = delay * 2 ^ 32.
Proof.
  unfold SNTPMessage.reply_receive_time.
  cbn [SNTPMessage.set_time_offset SNTPMessage.init_default SNTPMessage.init
       SNTPMessage.receive_time SNTPMessage.time_offset
       add_int number_value Z.add].
  apply format_time_inject_Z.
Qed.

(** ** The era of 32-bit seconds *)

Lemma round53_int (z : Z) :
  Z.abs z < 2 ^ 53 -> (round53 (inject_Z z) == inject_Z z)%Q.
Proof. apply float_of_int_exact. Qed.

Lemma float_of_TIME_OFFSET :
  (float_of_int TIME_OFFSET == inject_Z TIME_OFFSET)%Q.
Proof. apply float_of_int_exact. reflexivity. Qed.

Lemma ntp_time_round (t : Q) :
  (ntp_time t == round53 (t + inject_Z TIME_OFFSET))%Q.
Proof.
  unfold ntp_time. cbn [add_int number_value]. unfold fadd.
  apply round53_Qeq. now rewrite float_of_TIME_OFFSET.
Qed.

Lemma ntp_stamp_ntp_time (delay : Z) (t : Q) :
  ntp_stamp delay t
  = SNTPMessage.format_time (fadd (ntp_time t) (float_of_int delay)).
Proof. reflexivity. Qed.

Lemma round53_ge_int (z : Z) (x : Q) :
  Z.abs z < 2 ^ 53 -> (inject_Z z <= x)%Q -> (inject_Z z <= round53 x)%Q.
Proof.
  intros Hz H. rewrite <- (round53_int z Hz). now apply round53_mono.
Qed.

Lemma round53_le_int (z : Z) (x : Q) :
  Z.abs z < 2 ^ 53 -> (x <= inject_Z z)%Q -> (round53 x <= inject_Z z)%Q.
Proof.
  intros Hz H. rewrite <- (round53_int z Hz). now apply round53_mono.
Qed.

Lemma format_time_fits_inv (v : Q) :
  fits_u64 (SNTPMessage.format_time v) ->
  (inject_Z (- 1) < v)%Q /\ (v < inject_Z (2 ^ 32))%Q.
Proof.
  intros [H0 H1]. split; apply Qnot_le_lt; intros H;
    apply format_time_mono in H; rewrite format_time_inject_Z in H; lia.
Qed.

(** In the era, the arrival time the receiver stores lies between
    [2^31] and [2^32] and is a multiple of [2^-21]. *)
Lemma ntp_time_era (t : Q) :
  (inject_Z (2 ^ 31) <= t + inject_Z TIME_OFFSET)%Q ->
  (t + inject_Z TIME_OFFSET < inject_Z (2 ^ 32))%Q ->
  exists M, 2 ^ 52 <= M <= 2 ^ 53
            /\ (ntp_time t == inject_Z M / inject_Z (2 ^ 21))%Q.
Proof.
  intros H1 H2. destruct (round53_era _ H1 H2) as (M & HM & E).
  exists M. split; [exact HM|]. now rewrite ntp_time_round.
Qed.

Lemma grid_bounds (M : Z) (a : Q) :
  (a == inject_Z M / inject_Z (2 ^ 21))%Q ->
  forall lo hi, lo <= M <= hi ->
    (inject_Z lo / inject_Z (2 ^ 21) <= a <= inject_Z hi / inject_Z (2 ^ 21))%Q.
Proof.
  intros E lo hi [Hlo Hhi]. rewrite E.
  rewrite Zle_Qle in Hlo, Hhi.
  split; apply Qmult_le_compat_r; try assumption; discriminate.
Qed.

(** In the era, adding a delay for which the stamp fits is exact. *)
Lemma era_sum_exact (t : Q) (delay : Z) :
  (inject_Z (2 ^ 31) <= t + inject_Z TIME_OFFSET)%Q ->
  (t + inject_Z TIME_OFFSET < inject_Z (2 ^ 32))%Q ->
  fits_u64 (ntp_stamp delay t) ->
  (fadd (ntp_time t) (float_of_int delay) == ntp_time t + inject_Z delay)%Q
  /\ exists K, (ntp_time t + inject_Z delay
                == inject_Z K / inject_Z (2 ^ 21))%Q.
Proof.
  intros H1 H2 Hf.
  destruct (ntp_time_era t H1 H2) as (M & HM & Ea).
  destruct (grid_bounds M _ Ea (2 ^ 52) (2 ^ 53) HM) as [A1 A2].
  setoid_replace (inject_Z (2 ^ 52) / inject_Z (2 ^ 21))%Q
    with (inject_Z (2 ^ 31)) in A1 by reflexivity.
  setoid_replace (inject_Z (2 ^ 53) / inject_Z (2 ^ 21))%Q
    with (inject_Z (2 ^ 32)) in A2 by reflexivity.
  rewrite ntp_stamp_ntp_time in Hf.
  destruct (format_time_fits_inv _ Hf) as [V1 V2].
  set (a := ntp_time t) in *. set (d := float_of_int delay) in *.
  assert (S2 : (a + d < inject_Z (2 ^ 32))%Q).
  { apply Qnot_le_lt. intros H. apply (round53_ge_int (2 ^ 32)) in H;
      [|reflexivity]. unfold fadd in V2. lra. }
  assert (S1 : (inject_Z (- 1) < a + d)%Q).
  { apply Qnot_le_lt. intros H. apply (round53_le_int (- 1)) in H;
      [|reflexivity]. unfold fadd in V1. lra. }
  assert (Hd : Z.abs delay < 2 ^ 33).
  { destruct (Z.lt_ge_cases delay (2 ^ 33)) as [L|L];
      [destruct (Z.lt_ge_cases (- 2 ^ 33) delay) as [L'|L']; [lia|] |];
      exfalso.
    - assert (G : (d <= inject_Z (- 2 ^ 33))%Q).
      { apply round53_le_int; [reflexivity|]. rewrite <- Zle_Qle. lia. }
      change (inject_Z (- 2 ^ 33)) with (- 8589934592 # 1)%Q in G.
      change (inject_Z (- 1)) with (- 1 # 1)%Q in S1.
      change (inject_Z (2 ^ 32)) with (4294967296 # 1)%Q in A2. lra.
    - assert (G : (inject_Z (2 ^ 33) <= d)%Q).
      { apply round53_ge_int; [reflexivity|]. rewrite <- Zle_Qle. lia. }
      change (inject_Z (2 ^ 33)) with (8589934592 # 1)%Q in G.
      change (inject_Z (2 ^ 32)) with (4294967296 # 1)%Q in S2.
      change (inject_Z (2 ^ 31)) with (2147483648 # 1)%Q in A1. lra. }
  assert (Ed : (d == inject_Z delay)%Q)
    by (apply float_of_int_exact; lia).
  set (K := M + delay * 2 ^ 21).
  assert (Ek : (a + inject_Z delay == inject_Z K / inject_Z (2 ^ 21))%Q).
  { unfold K. rewrite Ea, inject_Z_plus, inject_Z_mult. field. discriminate. }
  assert (Em : (a * (2097152 # 1) == inject_Z M)%Q).
  { rewrite Ea. change (2097152 # 1)%Q with (inject_Z (2 ^ 21)).
    field. discriminate. }
  assert (EK : (inject_Z K == inject_Z M + inject_Z delay * (2097152 # 1))%Q).
  { unfold K. now rewrite inject_Z_plus, inject_Z_mult. }
  change (inject_Z (- 1)) with (- 1 # 1)%Q in S1.
  change (inject_Z (2 ^ 32)) with (4294967296 # 1)%Q in S2.
  assert (B1 : (inject_Z (- 2 ^ 21) < inject_Z K)%Q).
  { rewrite EK. change (inject_Z (- 2 ^ 21)) with (- 2097152 # 1)%Q. lra. }
  assert (B2 : (inject_Z K < inject_Z (2 ^ 53))%Q).
  { rewrite EK. change (inject_Z (2 ^ 53)) with (9007199254740992 # 1)%Q.
    lra. }
  rewrite <- Zlt_Qlt in B1, B2.
  split; [|exists K; exact Ek].
  unfold fadd.
  apply Qeq_trans with (round53 (inject_Z K / inject_Z (2 ^ 21))).
  - apply round53_Qeq.
    apply Qeq_trans with (a + inject_Z delay)%Q; [|exact Ek].
    apply Qplus_comp; [reflexivity | exact Ed].
  - rewrite round53_era_exact by lia. symmetry. exact Ek.
Qed.

(** The stamp of a multiple of [2^-21] has no fraction to cut off. *)
Lemma format_time_grid (x : Q) (K : Z) :
  (x == inject_Z K / inject_Z (2 ^ 21))%Q ->
  (inject_Z (SNTPMessage.format_time x) == x * inject_Z (2 ^ 32))%Q.
Proof.
  intros E.
  assert (Ex : (x * inject_Z (2 ^ 32) == inject_Z (K * 2 ^ 11))%Q)
    by (rewrite E, inject_Z_mult;
        change (inject_Z (2 ^ 21)) with (2097152 # 1)%Q;
        change (inject_Z (2 ^ 32)) with (4294967296 # 1)%Q;
        change (inject_Z (2 ^ 11)) with (2048 # 1)%Q; field).
  unfold SNTPMessage.format_time.
  now rewrite (py_int_Qeq _ _ Ex), py_int_inject_Z, Ex.
Qed.

(** A stamp that fits under a delay that is not negative puts the exact
    arrival time below [2^32]. *)
Lemma fits_era_upper (delay : Z) (t : Q) :
  0 <= delay ->
  fits_u64 (ntp_stamp delay t) ->
  (t + inject_Z TIME_OFFSET < inject_Z (2 ^ 32))%Q.
Proof.
  intros Hd Hf. apply Qnot_le_lt. intros H.
  rewrite ntp_stamp_ntp_time in Hf.
  destruct (format_time_fits_inv _ Hf) as [_ V].
  assert (A : (inject_Z (2 ^ 32) <= ntp_time t)%Q)
    by (rewrite ntp_time_round; now apply round53_ge_int).
  assert (D : (inject_Z 0 <= float_of_int delay)%Q).
  { apply round53_ge_int; [reflexivity|]. rewrite <- Zle_Qle. exact Hd. }
  assert (S : (inject_Z (2 ^ 32) <= ntp_time t + float_of_int delay)%Q).
  { change (inject_Z 0) with 0%Q in D. lra. }
  apply (round53_ge_int (2 ^ 32)) in S; [|reflexivity].
  unfold fadd in V. lra.
Qed.

(** Both stamps fit: the worker returns normally and the sent log grows
    by one frame, which instantiates the existential of the goal. *)
Ltac reply_is_sent Hr Ht :=
  rewrite (proj2 (in_range_Q_fits _) Hr), (proj2 (in_range_Q_fits _) Ht);
  cbn [andb fst snd Server.sent];
  eexists; split; [reflexivity|]; split; [reflexivity|].

(** * The claims *)

(** C1 (valid-request echo): a datagram of 48 bytes or more whose byte 0
    has mode bits 3 is answered with a reply whose originate field is
    the big-endian value of the request's bytes 40-47 and whose mode
    field is 4.  The reply is sent exactly when both stamps computed by
    [get_reply] fit the unsigned 64-bit fields; otherwise the worker
    raises and nothing is sent. *)
Theorem valid_request_echo (srv : Server.t) (datagram : bytes)
    (sender : Server.address) (t_recv t_send : Q) :
  Server.requests srv = [] ->
  (48 <= List.length datagram)%nat ->
  frame_mode datagram = 3 ->
  (fits_u64 (ntp_stamp (Server.time_delay srv) t_recv)
   /\ fits_u64 (ntp_stamp (Server.time_delay srv) t_send) ->
   exists reply,
     snd (serve_one srv datagram sender t_recv t_send) = Ok tt
     /\ Server.sent (fst (serve_one srv datagram sender t_recv t_send))
        = Server.sent srv ++ [(reply, sender)]
     /\ frame_originate reply = from_bytes_big (slice datagram 40 48)
     /\ frame_mode reply = 4)
  /\ (~ (fits_u64 (ntp_stamp (Server.time_delay srv) t_recv)
         /\ fits_u64 (ntp_stamp (Server.time_delay srv) t_send)) ->
      snd (serve_one srv datagram sender t_recv t_send) = Raise struct_error
      /\ Server.sent (fst (serve_one srv datagram sender t_recv t_send))
         = Server.sent srv).
Proof.
  intros Hq Hlen Hmode.
  rewrite (serve_one_client srv datagram sender t_recv t_send Hq Hlen Hmode).
  rewrite <- !in_range_Q_fits.
  destruct (first_byte_client datagram (from_bytes_big (slice datagram 40 48))
              (add_int (Float t_recv) TIME_OFFSET)) as (_ & Hm & _).
  split.
  - intros [Hr Ht]. rewrite Hr, Ht. cbn [andb fst snd Server.sent].
    eexists. repeat split.
    + apply frame_originate_layout, originate_fits.
    + unfold frame_mode. rewrite index_frame_layout_0. exact Hm.
  - intros Hn.
    destruct (Struct.in_range Struct.fmt_Q
                (ntp_stamp (Server.time_delay srv) t_recv));
      destruct (Struct.in_range Struct.fmt_Q
                  (ntp_stamp (Server.time_delay srv) t_send));
      cbn [andb fst snd Server.sent]; try (split; reflexivity).
    exfalso. apply Hn. split; reflexivity.
Qed.

Lemma valid_request_echo_witness :
  exists reply,
    snd (serve_one (Server.init 9123 5) sample_request sample_client
           sample_t_recv sample_t_send) = Ok tt
    /\ Server.sent (fst (serve_one (Server.init 9123 5) sample_request
                           sample_client sample_t_recv sample_t_send))
       = Server.sent (Server.init 9123 5) ++ [(reply, sample_client)]
    /\ frame_originate reply = from_bytes_big (slice sample_request 40 48)
    /\ frame_mode reply = 4.
Proof.
  apply (valid_request_echo (Server.init 9123 5) sample_request sample_client
           sample_t_recv sample_t_send).
  - reflexivity.
  - simpl. lia.
  - reflexivity.
  - split; vm_compute; split; [discriminate | reflexivity
                              | discriminate | reflexivity].
Defined.

(** C2 (reply encoding): whenever every field is in the range of its
    format code, [get_reply] returns exactly 48 bytes, big-endian: one
    byte [leap_indicator << 6 | version << 3 | mode], one byte stratum,
    one byte poll, one signed byte precision, five 32-bit words that are
    all zero, then the originate, receive and transmit stamps as three
    64-bit words.  A field out of range makes [struct.pack] raise, so
    every frame that is returned has 48 bytes. *)
Theorem get_reply_layout (self : SNTPMessage.t) (now : Q) :
  (packable self now = true ->
   SNTPMessage.get_reply self now =
     Ok (to_bytes_big 1
           (Z.lor (Z.lor (Z.shiftl (SNTPMessage.leap_indicator self) 6)
                         (Z.shiftl (SNTPMessage.version self) 3))
                  (SNTPMessage.mode self))
         ++ to_bytes_big 1 (SNTPMessage.stratum self)
         ++ to_bytes_big 1 (SNTPMessage.poll self)
         ++ to_bytes_big 1 (SNTPMessage.precision self)
         ++ List.concat (repeat (to_bytes_big 4 0) 5)
         ++ to_bytes_big 8 (SNTPMessage.originate_time self)
         ++ to_bytes_big 8 (SNTPMessage.reply_receive_time self)
         ++ to_bytes_big 8 (SNTPMessage.reply_transmit_time self now)))
  /\ (packable self now = false ->
      SNTPMessage.get_reply self now = Raise struct_error)
  /\ (forall reply, SNTPMessage.get_reply self now = Ok reply ->
        List.length reply = 48%nat).
Proof.
  rewrite get_reply_spec. destruct (packable self now).
  - split; [intros _ | split; [discriminate|]].
    + unfold reply_frame, frame_layout, frame_header, SNTPMessage.first_byte.
      cbn [repeat List.concat]. now rewrite <- !app_assoc.
    + intros reply [= <-]. apply length_frame_layout.
  - split; [discriminate | split; [reflexivity | discriminate]].
Qed.

Lemma get_reply_layout_witness :
  SNTPMessage.get_reply
    (SNTPMessage.set_time_offset
       (SNTPMessage.init true 3 4 (2 ^ 32)
          (Float (inject_Z 3908988800))) 5)
    sample_t_send
  = Ok ([x1c; x00; x00; x00] ++ repeat x00 20
        ++ [x00; x00; x00; x01; x00; x00; x00; x00]
        ++ [xe8; xfe; x6f; x85; x00; x00; x00; x00]
        ++ [xe8; xfe; x6f; x86; x00; x00; x00; x00])
  /\ SNTPMessage.get_reply
       (SNTPMessage.set_time_offset (SNTPMessage.init_default false) (-1))
       sample_t_send
     = Raise struct_error.
Proof.
  split.
  - refine (eq_trans
      (proj1 (get_reply_layout
         (SNTPMessage.set_time_offset
            (SNTPMessage.init true 3 4 (2 ^ 32)
          (Float (inject_Z 3908988800))) 5)
         sample_t_send) _) _).
    + vm_compute. reflexivity.
    + vm_compute. reflexivity.
  - apply (proj1 (proj2 (get_reply_layout
      (SNTPMessage.set_time_offset (SNTPMessage.init_default false) (-1))
      sample_t_send))).
    vm_compute. reflexivity.
Defined.

(** C3 (mode filtering): a datagram of at least 48 bytes whose mode bits
    are not 3 decodes to [None]; that is what the receiver queues, and
    the worker that takes the entry sends nothing.  Hence a server that
    only ever receives such datagrams sends nothing, whatever the
    interleaving of receiver and worker iterations. *)
Theorem other_mode_no_reply (srv : Server.t) (datagram : bytes)
    (sender : Server.address) (t_recv : Q) :
  (48 <= List.length datagram)%nat ->
  frame_mode datagram <> 3 ->
  Server.format_request (Server.recvfrom 1024 datagram) t_recv = None
  /\ Server.requests (Server.receive_request srv datagram sender t_recv)
     = Server.requests srv ++ [(None, sender)]
  /\ (forall self rest now,
        Server.requests self = (None, sender) :: rest ->
        Server.sent (fst (Server.reply_to_request self now)) = Server.sent self
        /\ snd (Server.reply_to_request self now) = Ok tt)
  /\ (forall t_send,
        Server.requests srv = [] ->
        Server.sent (fst (serve_one srv datagram sender t_recv t_send))
        = Server.sent srv)
  /\ (forall evs,
        Server.requests srv = [] ->
        Forall other_mode_arrival evs ->
        Server.sent (run srv (Arrive datagram sender t_recv :: evs))
        = Server.sent srv).
Proof.
  intros Hlen Hmode.
  assert (Hd : Server.format_request (Server.recvfrom 1024 datagram) t_recv
               = None).
  { apply format_request_other_mode;
      [now apply recvfrom_long | now rewrite frame_mode_recvfrom]. }
  repeat split.
  - exact Hd.
  - unfold Server.receive_request. cbn [Server.requests]. now rewrite Hd.
  - now rewrite (reply_to_request_none self sender rest now).
  - now rewrite (reply_to_request_none self sender rest now).
  - intros t_send Hq. now rewrite serve_one_other_mode.
  - intros evs Hq Hevs. apply run_other_mode.
    + constructor; [split|]; assumption.
    + rewrite Hq. constructor.
Qed.

Lemma other_mode_no_reply_witness :
  Server.sent (fst (serve_one (Server.init 9123 5) test_client_datagram
                      sample_client sample_t_recv sample_t_send))
  = Server.sent (Server.init 9123 5).
Proof.
  apply (other_mode_no_reply (Server.init 9123 5) test_client_datagram
           sample_client sample_t_recv).
  - simpl. lia.
  - vm_compute. discriminate.
  - reflexivity.
Defined.

(** C4, as stated, fails: on a server configured with delay 5 the reply
    to an empty datagram does not have a zero receive field. *)
Lemma short_datagram_zero_fields_counterexample :
  (List.length (@nil byte) < 48)%nat
  /\ ~ (exists reply,
          Server.sent (fst (serve_one (Server.init 9123 5) [] sample_client
                              sample_t_recv sample_t_send))
          = Server.sent (Server.init 9123 5) ++ [(reply, sample_client)]
          /\ List.length reply = 48%nat
          /\ frame_originate reply = 0
          /\ frame_receive reply = 0).
Proof.
  split; [simpl; lia|].
  intros (reply & Hs & _ & _ & Hr).
  vm_compute in Hs. injection Hs as Hs. subst reply.
  vm_compute in Hr. discriminate.
Qed.

(** C4 (short datagram, amended): a datagram shorter than 48 bytes is
    still answered when the configured delay [D] satisfies
    [0 <= D < 2^32] and the transmit stamp fits 64 bits; the reply has
    48 bytes, a zero originate field, and the receive field [D * 2^32],
    which is zero exactly when [D = 0]. *)
Theorem short_datagram_reply (srv : Server.t) (datagram : bytes)
    (sender : Server.address) (t_recv t_send : Q) :
  Server.requests srv = [] ->
  (List.length datagram < 48)%nat ->
  0 <= Server.time_delay srv < 2 ^ 32 ->
  fits_u64 (ntp_stamp (Server.time_delay srv) t_send) ->
  exists reply,
    snd (serve_one srv datagram sender t_recv t_send) = Ok tt
    /\ Server.sent (fst (serve_one srv datagram sender t_recv t_send))
       = Server.sent srv ++ [(reply, sender)]
    /\ List.length reply = 48%nat
    /\ frame_originate reply = 0
    /\ frame_receive reply = Server.time_delay srv * 2 ^ 32
    /\ (frame_receive reply = 0 <-> Server.time_delay srv = 0).
Proof.
  intros Hq Hlen Hd Ht.
  assert (Hr : fits_u64 (Server.time_delay srv * 2 ^ 32))
    by (unfold fits_u64; lia).
  rewrite (serve_one_short srv datagram sender t_recv t_send Hq Hlen).
  reply_is_sent Hr Ht.
  rewrite length_frame_layout, frame_originate_layout, frame_receive_layout
    by (assumption || (unfold fits_u64; lia)).
  repeat split; lia.
Qed.

Lemma short_datagram_reply_witness :
  exists reply,
    snd (serve_one (Server.init 9123 5) [x1b; x00] sample_client
           sample_t_recv sample_t_send) = Ok tt
    /\ Server.sent (fst (serve_one (Server.init 9123 5) [x1b; x00]
                           sample_client sample_t_recv sample_t_send))
       = Server.sent (Server.init 9123 5) ++ [(reply, sample_client)]
    /\ List.length reply = 48%nat
    /\ frame_originate reply = 0
    /\ frame_receive reply = Server.time_delay (Server.init 9123 5) * 2 ^ 32
    /\ (frame_receive reply = 0 <-> Server.time_delay (Server.init 9123 5) = 0).
Proof.
  apply (short_datagram_reply (Server.init 9123 5) [x1b; x00] sample_client
           sample_t_recv sample_t_send).
  - reflexivity.
  - simpl. lia.
  - simpl. lia.
  - vm_compute. split; [discriminate | reflexivity].
Defined.

(** C5, as stated, fails twice.  The reply to the scenario's request
    starts with byte [0x1C], not [0x24].  And at the clock reading
    [1700000000 + 2^-22] the sum with the epoch offset is rounded down
    to [3908988800], so the receive field encodes a time below the
    clock at receipt plus 5 seconds. *)
Lemma end_to_end_first_byte_counterexample :
  List.length sample_request = 48%nat
  /\ index sample_request 0 = 0x1B
  /\ from_bytes_big (slice sample_request 40 48) = 0x0000000100000000
  /\ Server.time_delay (Server.init 9123 5) = 5
  /\ ~ (exists reply,
          Server.sent (fst (serve_one (Server.init 9123 5) sample_request
                              sample_client sample_t_recv sample_t_send))
          = Server.sent (Server.init 9123 5) ++ [(reply, sample_client)]
          /\ index reply 0 = 0x24)
  /\ exists reply,
       Server.sent (fst (serve_one (Server.init 9123 5) sample_request
                           sample_client sample_t_odd sample_t_send))
       = Server.sent (Server.init 9123 5) ++ [(reply, sample_client)]
       /\ (inject_Z (frame_receive reply)
           < (sample_t_odd + inject_Z TIME_OFFSET + inject_Z 5)
             * inject_Z (2 ^ 32))%Q.
Proof.
  repeat split; try reflexivity.
  - intros (reply & Hs & Hb).
    vm_compute in Hs. injection Hs as Hs. subst reply.
    vm_compute in Hb. discriminate.
  - eexists. split; [vm_compute; reflexivity|]. vm_compute. reflexivity.
Qed.

(** C5 (end-to-end scenario, amended): for a 48-byte request with byte 0
    equal to [0x1B] and bytes 40-47 holding [0x0000000100000000], on a
    server configured with delay 5, when both stamps fit and the clock
    has not gone back before the send, the reply has 48 bytes, byte 0
    equal to [0x1C] (leap indicator 0, the request's version 3, mode
    4) and originate field [0x0000000100000000].  Its receive and
    transmit fields are the stamps of the binary64 sums the code
    computes from the clock readings at receipt and at send time; for
    a reading at receipt with [2^31 <= reading + offset] both encode
    times at least the clock at receipt as the receiver stored it
    ([ntp_time]) plus 5 seconds, the receive field exactly that. *)
Theorem end_to_end_scenario (srv : Server.t) (datagram : bytes)
    (sender : Server.address) (t_recv t_send : Q) :
  Server.requests srv = [] ->
  Server.time_delay srv = 5 ->
  List.length datagram = 48%nat ->
  index datagram 0 = 0x1B ->
  from_bytes_big (slice datagram 40 48) = 0x0000000100000000 ->
  fits_u64 (ntp_stamp 5 t_recv) ->
  fits_u64 (ntp_stamp 5 t_send) ->
  (t_recv <= t_send)%Q ->
  exists reply,
    snd (serve_one srv datagram sender t_recv t_send) = Ok tt
    /\ Server.sent (fst (serve_one srv datagram sender t_recv t_send))
       = Server.sent srv ++ [(reply, sender)]
    /\ List.length reply = 48%nat
    /\ index reply 0 = 0x1C
    /\ frame_version reply = 3
    /\ frame_mode reply = 4
    /\ frame_originate reply = 0x0000000100000000
    /\ frame_receive reply
       = SNTPMessage.format_time (fadd (ntp_time t_recv) (float_of_int 5))
    /\ frame_transmit reply
       = SNTPMessage.format_time (fadd (ntp_time t_send) (float_of_int 5))
    /\ frame_receive reply <= frame_transmit reply
    /\ ((inject_Z (2 ^ 31) <= t_recv + inject_Z TIME_OFFSET)%Q ->
        (inject_Z (frame_receive reply)
         == (ntp_time t_recv + inject_Z 5) * inject_Z (2 ^ 32))%Q
        /\ ((ntp_time t_recv + inject_Z 5) * inject_Z (2 ^ 32)
            <= inject_Z (frame_transmit reply))%Q).
Proof.
  intros Hq Hd Hlen Hb Ho Hr Ht Hle.
  assert (Hmode : frame_mode datagram = 3)
    by (unfold frame_mode; now rewrite Hb).
  assert (Hver : frame_version datagram = 3)
    by (unfold frame_version; now rewrite Hb).
  rewrite (serve_one_client srv datagram sender t_recv t_send Hq)
    by (assumption || lia).
  rewrite Hd, Ho, Hver.
  reply_is_sent Hr Ht.
  unfold frame_version, frame_mode.
  rewrite length_frame_layout, index_frame_layout_0, frame_originate_layout,
    frame_receive_layout, frame_transmit_layout
    by (assumption || (unfold fits_u64; lia)).
  assert (Hm : ntp_stamp 5 t_recv <= ntp_stamp 5 t_send)
    by now apply ntp_stamp_mono.
  repeat (split; [reflexivity || exact Hm|]).
  intros He.
  destruct (era_sum_exact t_recv 5 He) as (Es & K & Ek);
    [apply (fits_era_upper 5); [lia | exact Hr] | exact Hr |].
  assert (Er : (inject_Z (ntp_stamp 5 t_recv)
                == (ntp_time t_recv + inject_Z 5) * inject_Z (2 ^ 32))%Q).
  { rewrite ntp_stamp_ntp_time, (format_time_Qeq _ _ Es).
    now apply (format_time_grid _ K). }
  split; [exact Er|].
  rewrite <- Er, <- Zle_Qle. exact Hm.
Qed.

Lemma end_to_end_scenario_witness :
  exists reply,
    snd (serve_one (Server.init 9123 5) sample_request sample_client
           sample_t_odd sample_t_send) = Ok tt
    /\ Server.sent (fst (serve_one (Server.init 9123 5) sample_request
                           sample_client sample_t_odd sample_t_send))
       = Server.sent (Server.init 9123 5) ++ [(reply, sample_client)]
    /\ List.length reply = 48%nat
    /\ index reply 0 = 0x1C
    /\ frame_version reply = 3
    /\ frame_mode reply = 4
    /\ frame_originate reply = 0x0000000100000000
    /\ frame_receive reply <= frame_transmit reply
    /\ (inject_Z (frame_receive reply)
        == (ntp_time sample_t_odd + inject_Z 5) * inject_Z (2 ^ 32))%Q
    /\ ((ntp_time sample_t_odd + inject_Z 5) * inject_Z (2 ^ 32)
        <= inject_Z (frame_transmit reply))%Q.
Proof.
  destruct (end_to_end_scenario (Server.init 9123 5) sample_request
              sample_client sample_t_odd sample_t_send)
    as (reply & H1 & H2 & H3 & H4 & H5 & H6 & H7 & _ & _ & H8 & H9).
  - reflexivity.
  - reflexivity.
  - reflexivity.
  - reflexivity.
  - reflexivity.
  - vm_compute. split; [discriminate | reflexivity].
  - vm_compute. split; [discriminate | reflexivity].
  - vm_compute. discriminate.
  - destruct H9 as [H9 H10]; [vm_compute; discriminate|].
    exists reply. repeat split; assumption.
Defined.

(** C6, as stated, fails: at the clock reading [1700000000 + 2^-22]
    the sum with the epoch offset is rounded to [3908988800], and the
    receive field of the reply differs from arrival reading plus offset
    plus delay by [2^-22] seconds, 1024 encoding units. *)
Lemma delay_application_counterexample :
  exists reply,
    Server.sent (fst (serve_one (Server.init 9123 5) sample_request
                        sample_client sample_t_odd sample_t_send))
    = Server.sent (Server.init 9123 5) ++ [(reply, sample_client)]
    /\ frame_receive reply = 3908988805 * 2 ^ 32
    /\ ~ (Qabs (inject_Z (frame_receive reply) / inject_Z (2 ^ 32)
                - (sample_t_odd + inject_Z TIME_OFFSET
                   + inject_Z (Server.time_delay (Server.init 9123 5))))
          < 1 / inject_Z (2 ^ 32))%Q.
Proof.
  eexists. split; [vm_compute; reflexivity|].
  split; [reflexivity|]. vm_compute. discriminate.
Qed.

(** C6 (delay application, amended): in the reply to a valid request,
    the receive field, read as a 32.32 fixed-point number, is within
    one unit of [2^-32] seconds of the binary64 sum of the arrival time
    the receiver stored ([ntp_time], itself the rounded sum of clock
    reading and epoch offset) and the configured delay.  For an arrival
    reading with [2^31 <= reading + offset < 2^32] that sum is exact,
    so the field encodes the stored arrival time plus the delay to
    within one unit.  When the delay is nonnegative and the clock
    reading at send time is not before the one at arrival, the transmit
    field is at least the receive field. *)
Theorem delay_application (srv : Server.t) (datagram : bytes)
    (sender : Server.address) (t_recv t_send : Q) :
  Server.requests srv = [] ->
  (48 <= List.length datagram)%nat ->
  frame_mode datagram = 3 ->
  fits_u64 (ntp_stamp (Server.time_delay srv) t_recv) ->
  fits_u64 (ntp_stamp (Server.time_delay srv) t_send) ->
  exists reply,
    snd (serve_one srv datagram sender t_recv t_send) = Ok tt
    /\ Server.sent (fst (serve_one srv datagram sender t_recv t_send))
       = Server.sent srv ++ [(reply, sender)]
    /\ (Qabs (inject_Z (frame_receive reply) / inject_Z (2 ^ 32)
              - fadd (ntp_time t_recv) (float_of_int (Server.time_delay srv)))
        < 1 / inject_Z (2 ^ 32))%Q
    /\ ((inject_Z (2 ^ 31) <= t_recv + inject_Z TIME_OFFSET)%Q ->
        (t_recv + inject_Z TIME_OFFSET < inject_Z (2 ^ 32))%Q ->
        (Qabs (inject_Z (frame_receive reply) / inject_Z (2 ^ 32)
               - (ntp_time t_recv + inject_Z (Server.time_delay srv)))
         < 1 / inject_Z (2 ^ 32))%Q)
    /\ (0 <= Server.time_delay srv -> (t_recv <= t_send)%Q ->
        frame_receive reply <= frame_transmit reply).
Proof.
  intros Hq Hlen Hmode Hr Ht.
  rewrite (serve_one_client srv datagram sender t_recv t_send Hq Hlen Hmode).
  reply_is_sent Hr Ht.
  rewrite frame_receive_layout, frame_transmit_layout by assumption.
  split; [|split].
  - rewrite ntp_stamp_ntp_time. apply format_time_within_unit.
  - intros H1 H2.
    destruct (era_sum_exact t_recv (Server.time_delay srv) H1 H2 Hr)
      as (Es & _).
    rewrite ntp_stamp_ntp_time, (format_time_Qeq _ _ Es).
    apply format_time_within_unit.
  - intros _ Hle. now apply ntp_stamp_mono.
Qed.

Lemma delay_application_witness :
  exists reply,
    snd (serve_one (Server.init 9123 5) sample_request sample_client
           sample_t_odd sample_t_send) = Ok tt
    /\ Server.sent (fst (serve_one (Server.init 9123 5) sample_request
                           sample_client sample_t_odd sample_t_send))
       = Server.sent (Server.init 9123 5) ++ [(reply, sample_client)]
    /\ (Qabs (inject_Z (frame_receive reply) / inject_Z (2 ^ 32)
              - (ntp_time sample_t_odd
                 + inject_Z (Server.time_delay (Server.init 9123 5))))
        < 1 / inject_Z (2 ^ 32))%Q
    /\ frame_receive reply <= frame_transmit reply.
Proof.
  destruct (delay_application (Server.init 9123 5) sample_request
              sample_client sample_t_odd sample_t_send)
    as (reply & H1 & H2 & _ & H3 & H4).
  - reflexivity.
  - simpl. lia.
  - reflexivity.
  - vm_compute. split; [discriminate | reflexivity].
  - vm_compute. split; [discriminate | reflexivity].
  - exists reply. split; [exact H1|]. split; [exact H2|]. split.
    + apply H3; vm_compute; [discriminate | reflexivity].
    + apply H4; [simpl; lia | vm_compute; discriminate].
Defined.

(** C7, as stated, fails: at [-2^-33] seconds [format_time] returns 0,
    while the floor of [-2^-33 * 2^32 = -1/2] is [-1]. *)
Lemma format_time_floor_counterexample :
  SNTPMessage.format_time (-1 # 8589934592) = 0
  /\ Qfloor ((-1 # 8589934592) * inject_Z (2 ^ 32)) = -1
  /\ SNTPMessage.format_time (-1 # 8589934592)
     <> Qfloor ((-1 # 8589934592) * inject_Z (2 ^ 32)).
Proof.
  repeat split; try reflexivity. vm_compute. discriminate.
Qed.

(** C7 (timestamp formatting, amended): [format_time s] is [s * 2^32]
    with the fraction cut off toward zero: the floor of [s * 2^32] for
    [s >= 0], its ceiling for [s <= 0]. *)
Theorem format_time_truncates (s : Q) :
  ((0 <= s)%Q ->
   SNTPMessage.format_time s = Qfloor (s * inject_Z (2 ^ 32)))
  /\ ((s <= 0)%Q ->
      SNTPMessage.format_time s = Qceiling (s * inject_Z (2 ^ 32))).
Proof.
  unfold SNTPMessage.format_time. split; intros H.
  - apply py_int_floor.
    apply Qmult_le_0_compat; [exact H | apply Qlt_le_weak, two32_pos].
  - apply py_int_ceiling.
    setoid_replace 0%Q with (0 * inject_Z (2 ^ 32))%Q by reflexivity.
    apply Qmult_le_compat_r; [exact H | apply Qlt_le_weak, two32_pos].
Qed.

Lemma format_time_truncates_witness :
  SNTPMessage.format_time (3 # 2) = Qfloor ((3 # 2) * inject_Z (2 ^ 32))
  /\ SNTPMessage.format_time (-3 # 2)
     = Qceiling ((-3 # 2) * inject_Z (2 ^ 32)).
Proof.
  split.
  - apply (proj1 (format_time_truncates (3 # 2))). vm_compute. discriminate.
  - apply (proj2 (format_time_truncates (-3 # 2))). vm_compute. discriminate.
Defined.

(** C8 (round trip): for a seconds value [t] with [0 <= t < 2^32], the
    stamp [format_time t] is an unsigned 64-bit value, and dividing it
    by [2^32] gives [t] back to within [2^-32] seconds. *)
Theorem timestamp_round_trip (t : Q) :
  (0 <= t)%Q -> (t < inject_Z (2 ^ 32))%Q ->
  fits_u64 (SNTPMessage.format_time t)
  /\ (Qabs (inject_Z (SNTPMessage.format_time t) / inject_Z (2 ^ 32) - t)
      < 1 / inject_Z (2 ^ 32))%Q.
Proof.
  intros H0 H1. split.
  - now apply format_time_fits.
  - apply format_time_within_unit.
Qed.

Lemma timestamp_round_trip_witness :
  fits_u64 (SNTPMessage.format_time (1 # 3))
  /\ (Qabs (inject_Z (SNTPMessage.format_time (1 # 3)) / inject_Z (2 ^ 32)
            - (1 # 3))
      < 1 / inject_Z (2 ^ 32))%Q.
Proof.
  apply (timestamp_round_trip (1 # 3)).
  - vm_compute. discriminate.
  - vm_compute. reflexivity.
Defined.

(** C9, as stated, fails: in the reply to the sample request the eight
    bytes at offset 40 are the transmit stamp, not the originate value;
    the originate value sits at offset 24, and bytes 20-23 are the last
    of the zero words. *)
Lemma timestamp_offsets_counterexample :
  exists reply,
    Server.sent (fst (serve_one (Server.init 9123 5) sample_request
                        sample_client sample_t_recv sample_t_send))
    = [(reply, sample_client)]
    /\ from_bytes_big (slice reply 40 48)
       <> from_bytes_big (slice sample_request 40 48)
    /\ from_bytes_big (slice reply 40 48) = ntp_stamp 5 sample_t_send
    /\ from_bytes_big (slice reply 24 32)
       = from_bytes_big (slice sample_request 40 48)
    /\ slice reply 20 24 = [x00; x00; x00; x00].
Proof.
  eexists. split; [vm_compute; reflexivity|].
  repeat split; try reflexivity. vm_compute. discriminate.
Qed.

(** C9 (frame layout, amended): in the 48-byte frame [get_reply]
    produces, bytes 4-23 are five zero 32-bit words and the three
    64-bit big-endian stamps occupy bytes 24-47: originate at offset 24,
    receive at offset 32, transmit at offset 40.  In the request that
    [format_request] consumes, the value that becomes the originate
    stamp is read big-endian from bytes 40-47. *)
Theorem timestamp_offsets (self : SNTPMessage.t) (now : Q) :
  (packable self now = true ->
   exists reply,
     SNTPMessage.get_reply self now = Ok reply
     /\ List.length reply = 48%nat
     /\ slice reply 4 24 = List.concat (repeat (to_bytes_big 4 0) 5)
     /\ slice reply 24 32 = to_bytes_big 8 (SNTPMessage.originate_time self)
     /\ slice reply 32 40
        = to_bytes_big 8 (SNTPMessage.reply_receive_time self)
     /\ slice reply 40 48
        = to_bytes_big 8 (SNTPMessage.reply_transmit_time self now)
     /\ frame_originate reply = SNTPMessage.originate_time self
     /\ frame_receive reply = SNTPMessage.reply_receive_time self
     /\ frame_transmit reply = SNTPMessage.reply_transmit_time self now)
  /\ (forall data t m,
        (48 <= List.length data)%nat ->
        Server.format_request data t = Some m ->
        SNTPMessage.originate_time m = from_bytes_big (slice data 40 48)).
Proof.
  split.
  - intros Hp. rewrite get_reply_spec, Hp.
    unfold packable in Hp. rewrite !andb_true_iff, !in_range_Q_fits in Hp.
    destruct Hp as [[[_ Ho] Hr] Ht].
    eexists. split; [reflexivity|]. unfold reply_frame.
    rewrite length_frame_layout, slice_frame_zero_words, slice_frame_originate,
      slice_frame_receive, slice_frame_transmit,
      frame_originate_layout, frame_receive_layout, frame_transmit_layout
      by assumption.
    repeat split; reflexivity.
  - intros data t m Hlen. unfold Server.format_request.
    apply Nat.ltb_ge in Hlen. rewrite Hlen.
    destruct (negb (Z.land (index data 0) 7 =? 3)); [discriminate|].
    intros [= <-]. reflexivity.
Qed.

Lemma timestamp_offsets_witness :
  exists reply,
    SNTPMessage.get_reply
      (SNTPMessage.set_time_offset
         (SNTPMessage.init true 3 4 (2 ^ 32)
          (Float (inject_Z 3908988800))) 5)
      sample_t_send = Ok reply
    /\ slice reply 24 32 = [x00; x00; x00; x01; x00; x00; x00; x00]
    /\ slice reply 32 40 = [xe8; xfe; x6f; x85; x00; x00; x00; x00]
    /\ slice reply 40 48 = [xe8; xfe; x6f; x86; x00; x00; x00; x00].
Proof.
  destruct (proj1 (timestamp_offsets
             (SNTPMessage.set_time_offset
                (SNTPMessage.init true 3 4 (2 ^ 32)
          (Float (inject_Z 3908988800))) 5)
             sample_t_send)) as (reply & Hg & _ & _ & Ho & Hr & Ht & _).
  - vm_compute. reflexivity.
  - exists reply. repeat split; assumption.
Defined.

(** C10, as stated, fails in its last part: with the nonnegative delay
    [2^32] the receive stamp of the reply to a short datagram is
    [2^64], which ['>Q'] rejects just the same, and the worker raises. *)
Lemma nonnegative_delay_counterexample :
  (List.length (@nil byte) < 48)%nat
  /\ 0 <= Server.time_delay (Server.init 9123 (2 ^ 32))
  /\ SNTPMessage.reply_receive_time
       (SNTPMessage.set_time_offset (SNTPMessage.init_default false)
          (2 ^ 32)) = 2 ^ 64
  /\ Struct.pack ">Q" [2 ^ 64] = Raise struct_error
  /\ snd (serve_one (Server.init 9123 (2 ^ 32)) [] sample_client
            sample_t_recv sample_t_send) = Raise struct_error.
Proof.
  split; [simpl; lia|]. split; [simpl; lia|].
  repeat split; reflexivity.
Qed.

(** C10 (encoding is partial, amended): a datagram shorter than 48
    bytes decodes to a message with [receive_time = 0].  With a negative
    configured delay [D] its receive stamp [D * 2^32] is negative,
    ['>Q'] rejects it, and the worker raises instead of sending a
    reply.  With [0 <= D < 2^32] the receive stamp fits the field, and
    the 48-byte reply is sent whenever the transmit stamp fits too. *)
Theorem short_datagram_delay_sign (srv : Server.t) (datagram : bytes)
    (sender : Server.address) (t_recv t_send : Q) :
  Server.requests srv = [] ->
  (List.length datagram < 48)%nat ->
  Server.format_request (Server.recvfrom 1024 datagram) t_recv
  = Some (SNTPMessage.init_default false)
  /\ SNTPMessage.receive_time (SNTPMessage.init_default false) = Int 0
  /\ (Server.time_delay srv < 0 ->
      SNTPMessage.reply_receive_time
        (SNTPMessage.set_time_offset (SNTPMessage.init_default false)
           (Server.time_delay srv)) < 0
      /\ Struct.pack ">Q"
           [SNTPMessage.reply_receive_time
              (SNTPMessage.set_time_offset (SNTPMessage.init_default false)
                 (Server.time_delay srv))] = Raise struct_error
      /\ snd (serve_one srv datagram sender t_recv t_send)
         = Raise struct_error
      /\ Server.sent (fst (serve_one srv datagram sender t_recv t_send))
         = Server.sent srv)
  /\ (0 <= Server.time_delay srv < 2 ^ 32 ->
      fits_u64
        (SNTPMessage.reply_receive_time
           (SNTPMessage.set_time_offset (SNTPMessage.init_default false)
              (Server.time_delay srv)))
      /\ (fits_u64 (ntp_stamp (Server.time_delay srv) t_send) ->
          exists reply,
            snd (serve_one srv datagram sender t_recv t_send) = Ok tt
            /\ Server.sent (fst (serve_one srv datagram sender t_recv t_send))
               = Server.sent srv ++ [(reply, sender)]
            /\ List.length reply = 48%nat)).
Proof.
  intros Hq Hlen.
  rewrite receive_time_short.
  rewrite (serve_one_short srv datagram sender t_recv t_send Hq Hlen).
  split; [apply format_request_short; now apply recvfrom_short|].
  split; [reflexivity|].
  split.
  - intros Hd.
    assert (Hr : Struct.in_range Struct.fmt_Q (Server.time_delay srv * 2 ^ 32)
                 = false).
    { unfold Struct.in_range. apply andb_false_iff. left.
      apply Z.leb_gt. lia. }
    split; [lia|]. split.
    + now rewrite pack_single_Q, Hr.
    + rewrite Hr. cbn [andb fst snd Server.sent]. split; reflexivity.
  - intros Hd.
    assert (Hr : fits_u64 (Server.time_delay srv * 2 ^ 32))
      by (unfold fits_u64; lia).
    split; [exact Hr|]. intros Ht.
    reply_is_sent Hr Ht.
    apply length_frame_layout.
Qed.

Lemma short_datagram_delay_sign_witness :
  (SNTPMessage.reply_receive_time
     (SNTPMessage.set_time_offset (SNTPMessage.init_default false)
        (Server.time_delay (Server.init 9123 (-1)))) < 0
   /\ snd (serve_one (Server.init 9123 (-1)) [x1b; x00] sample_client
             sample_t_recv sample_t_send) = Raise struct_error)
  /\ exists reply,
       snd (serve_one (Server.init 9123 5) [x1b; x00] sample_client
              sample_t_recv sample_t_send) = Ok tt
       /\ Server.sent (fst (serve_one (Server.init 9123 5) [x1b; x00]
                              sample_client sample_t_recv sample_t_send))
          = Server.sent (Server.init 9123 5) ++ [(reply, sample_client)]
       /\ List.length reply = 48%nat.
Proof.
  split.
  - destruct (short_datagram_delay_sign (Server.init 9123 (-1)) [x1b; x00]
                sample_client sample_t_recv sample_t_send)
      as (_ & _ & Hneg & _); [reflexivity | simpl; lia |].
    destruct Hneg as (H1 & _ & H2 & _); [simpl; lia|].
    split; assumption.
  - destruct (short_datagram_delay_sign (Server.init 9123 5) [x1b; x00]
                sample_client sample_t_recv sample_t_send)
      as (_ & _ & _ & Hpos); [reflexivity | simpl; lia |].
    destruct Hpos as (_ & Hsend); [simpl; lia|].
    apply Hsend. vm_compute. split; [discriminate | reflexivity].
Defined.

(** * Further properties of the code *)

(** ** Helpers *)

Lemma format_request_cases (data : bytes) (t : Q) (m : SNTPMessage.t) :
  Server.format_request data t = Some m ->
  ((List.length data < 48)%nat /\ m = SNTPMessage.init_default false)
  \/ ((48 <= List.length data)%nat /\ frame_mode data = 3
      /\ m = SNTPMessage.init true (frame_version data) 4
               (from_bytes_big (slice data 40 48))
               (add_int (Float t) TIME_OFFSET)).
Proof.
  intros H. destruct (Nat.lt_ge_cases (List.length data) 48) as [Hl|Hl].
  - left. rewrite format_request_short in H by exact Hl.
    injection H as <-. now split.
  - right. destruct (Z.eq_dec (frame_mode data) 3) as [Hm|Hm].
    + rewrite format_request_client in H by assumption.
      injection H as <-. repeat split; assumption.
    + rewrite format_request_other_mode in H by assumption. discriminate.
Qed.

Lemma byte_to_Z_inj (x y : byte) : byte_to_Z x = byte_to_Z y -> x = y.
Proof.
  unfold byte_to_Z. intros H. apply N2Z.inj in H.
  pose proof (Byte.of_to_N x) as Hx. rewrite H, Byte.of_to_N in Hx.
  now injection Hx.
Qed.

Lemma from_bytes_big_inj (l1 l2 : bytes) :
  List.length l1 = List.length l2 ->
  from_bytes_big l1 = from_bytes_big l2 -> l1 = l2.
Proof.
  revert l2. induction l1 as [|x l1 IH]; intros [|y l2] Hlen H;
    try discriminate; [reflexivity|].
  cbn [List.length] in Hlen. injection Hlen as Hlen.
  rewrite !from_bytes_big_cons, <- Hlen in H.
  pose proof (from_bytes_big_range l1) as R1.
  pose proof (from_bytes_big_range l2) as R2. rewrite <- Hlen in R2.
  pose proof (byte_to_Z_range x). pose proof (byte_to_Z_range y).
  assert (Hb : byte_to_Z x = byte_to_Z y) by nia.
  rewrite Hb in H. f_equal.
  - now apply byte_to_Z_inj.
  - apply IH; [exact Hlen | lia].
Qed.

Lemma length_slice (data : bytes) (lo hi : nat) :
  (hi <= List.length data)%nat ->
  List.length (slice data lo hi) = (hi - lo)%nat.
Proof.
  intros H. unfold slice. rewrite length_firstn, length_skipn. lia.
Qed.

(** The leap-indicator bits of a reply to a client request. *)
Lemma first_byte_client_leap (data : bytes) (o : Z) (rt : number) :
  Z.shiftr
    (SNTPMessage.first_byte
       (SNTPMessage.init true (frame_version data) 4 o rt) mod 256) 6 = 0.
Proof.
  unfold SNTPMessage.first_byte, SNTPMessage.init, frame_version, index.
  cbn [SNTPMessage.leap_indicator SNTPMessage.version SNTPMessage.mode].
  destruct (nth 0 data x00); reflexivity.
Qed.

(** A client request whose stamps fit: the state the worker leaves. *)
Lemma serve_one_client_sent (srv : Server.t) (datagram : bytes)
    (sender : Server.address) (t_recv t_send : Q) :
  Server.requests srv = [] ->
  (48 <= List.length datagram)%nat ->
  frame_mode datagram = 3 ->
  fits_u64 (ntp_stamp (Server.time_delay srv) t_recv) ->
  fits_u64 (ntp_stamp (Server.time_delay srv) t_send) ->
  serve_one srv datagram sender t_recv t_send =
  (Server.mk (Server.port srv) (Server.time_delay srv) []
     (Server.sent srv
      ++ [(frame_layout
             (SNTPMessage.first_byte
                (SNTPMessage.init true (frame_version datagram) 4
                   (from_bytes_big (slice datagram 40 48))
                   (add_int (Float t_recv) TIME_OFFSET))) 0 0 0
             (from_bytes_big (slice datagram 40 48))
             (ntp_stamp (Server.time_delay srv) t_recv)
             (ntp_stamp (Server.time_delay srv) t_send), sender)]),
   Ok tt).
Proof.
  intros Hq Hlen Hmode Hr Ht.
  rewrite (serve_one_client srv datagram sender t_recv t_send Hq Hlen Hmode).
  now rewrite (proj2 (in_range_Q_fits _) Hr), (proj2 (in_range_Q_fits _) Ht).
Qed.

(** A short datagram whose stamps fit: the state the worker leaves. *)
Lemma serve_one_short_sent (srv : Server.t) (datagram : bytes)
    (sender : Server.address) (t_recv t_send : Q) :
  Server.requests srv = [] ->
  (List.length datagram < 48)%nat ->
  0 <= Server.time_delay srv < 2 ^ 32 ->
  fits_u64 (ntp_stamp (Server.time_delay srv) t_send) ->
  serve_one srv datagram sender t_recv t_send =
  (Server.mk (Server.port srv) (Server.time_delay srv) []
     (Server.sent srv
      ++ [(frame_layout 27 0 0 0 0 (Server.time_delay srv * 2 ^ 32)
             (ntp_stamp (Server.time_delay srv) t_send), sender)]),
   Ok tt).
Proof.
  intros Hq Hlen Hd Ht.
  assert (Hr : fits_u64 (Server.time_delay srv * 2 ^ 32))
    by (unfold fits_u64; lia).
  rewrite (serve_one_short srv datagram sender t_recv t_send Hq Hlen).
  now rewrite (proj2 (in_range_Q_fits _) Hr), (proj2 (in_range_Q_fits _) Ht).
Qed.

(** ** Decoding and encoding together *)

(** X1: on a message that [format_request] returned, with any delay
    applied, [get_reply] returns a frame exactly when the receive stamp
    and the transmit stamp both lie in the unsigned 64-bit range: the
    header byte, the zero fields and the originate value never make
    [struct.pack] fail. *)
Theorem decoded_reply_packs_iff (data : bytes) (t : Q) (m : SNTPMessage.t)
    (delay : Z) (now : Q) :
  Server.format_request data t = Some m ->
  (exists reply,
     SNTPMessage.get_reply (SNTPMessage.set_time_offset m delay) now
     = Ok reply)
  <-> fits_u64 (SNTPMessage.reply_receive_time
                  (SNTPMessage.set_time_offset m delay))
      /\ fits_u64 (SNTPMessage.reply_transmit_time
                     (SNTPMessage.set_time_offset m delay) now).
Proof.
  intros H. rewrite get_reply_spec, <- !in_range_Q_fits.
  assert (Hp : packable (SNTPMessage.set_time_offset m delay) now
               = Struct.in_range Struct.fmt_Q
                   (SNTPMessage.reply_receive_time
                      (SNTPMessage.set_time_offset m delay))
                 && Struct.in_range Struct.fmt_Q
                      (SNTPMessage.reply_transmit_time
                         (SNTPMessage.set_time_offset m delay) now)).
  { destruct (format_request_cases data t m H) as [[_ ->] | (_ & _ & ->)].
    - unfold SNTPMessage.init_default. rewrite packable_init;
        [reflexivity | reflexivity | unfold fits_u64; lia].
    - rewrite packable_init;
        [reflexivity | apply first_byte_client | apply originate_fits]. }
  rewrite Hp, <- andb_true_iff.
  destruct (Struct.in_range Struct.fmt_Q
              (SNTPMessage.reply_receive_time
                 (SNTPMessage.set_time_offset m delay))
            && Struct.in_range Struct.fmt_Q
                 (SNTPMessage.reply_transmit_time
                    (SNTPMessage.set_time_offset m delay) now)).
  - split; [reflexivity | intros _; eexists; reflexivity].
  - split; [intros [reply Hr]; discriminate | discriminate].
Qed.

Lemma decoded_reply_packs_iff_witness :
  exists reply,
    SNTPMessage.get_reply
      (SNTPMessage.set_time_offset (SNTPMessage.init_default false) 5)
      sample_t_send = Ok reply.
Proof.
  apply (decoded_reply_packs_iff [x1b; x00] sample_t_recv
           (SNTPMessage.init_default false) 5 sample_t_send).
  - reflexivity.
  - split; vm_compute; split; (discriminate || reflexivity).
Defined.

(** X2: the echo is byte for byte: in the reply to a client request,
    bytes 24-31 are the request's bytes 40-47. *)
Theorem echo_is_bytewise (srv : Server.t) (datagram : bytes)
    (sender : Server.address) (t_recv t_send : Q) :
  Server.requests srv = [] ->
  (48 <= List.length datagram)%nat ->
  frame_mode datagram = 3 ->
  fits_u64 (ntp_stamp (Server.time_delay srv) t_recv) ->
  fits_u64 (ntp_stamp (Server.time_delay srv) t_send) ->
  exists reply,
    Server.sent (fst (serve_one srv datagram sender t_recv t_send))
    = Server.sent srv ++ [(reply, sender)]
    /\ slice reply 24 32 = slice datagram 40 48.
Proof.
  intros Hq Hlen Hmode Hr Ht.
  rewrite serve_one_client_sent by assumption. cbn [fst Server.sent].
  eexists. split; [reflexivity|].
  rewrite slice_frame_originate.
  apply from_bytes_big_inj.
  - rewrite length_to_bytes_big, length_slice by lia. reflexivity.
  - apply from_to_bytes_u64, originate_fits.
Qed.

Lemma echo_is_bytewise_witness :
  exists reply,
    Server.sent (fst (serve_one (Server.init 9123 5) sample_request
                        sample_client sample_t_recv sample_t_send))
    = Server.sent (Server.init 9123 5) ++ [(reply, sample_client)]
    /\ slice reply 24 32 = slice sample_request 40 48.
Proof.
  apply (echo_is_bytewise (Server.init 9123 5) sample_request sample_client
           sample_t_recv sample_t_send).
  - reflexivity.
  - simpl. lia.
  - reflexivity.
  - vm_compute. split; [discriminate | reflexivity].
  - vm_compute. split; [discriminate | reflexivity].
Defined.

(** X3: the reply to a client request carries the request's version
    field, whatever it is, and leap indicator 0, whatever the request's
    leap indicator: byte 0 of the reply is [8 * version + 4]. *)
Theorem version_is_echoed (srv : Server.t) (datagram : bytes)
    (sender : Server.address) (t_recv t_send : Q) :
  Server.requests srv = [] ->
  (48 <= List.length datagram)%nat ->
  frame_mode datagram = 3 ->
  fits_u64 (ntp_stamp (Server.time_delay srv) t_recv) ->
  fits_u64 (ntp_stamp (Server.time_delay srv) t_send) ->
  exists reply,
    Server.sent (fst (serve_one srv datagram sender t_recv t_send))
    = Server.sent srv ++ [(reply, sender)]
    /\ frame_version reply = frame_version datagram
    /\ Z.shiftr (index reply 0) 6 = 0
    /\ index reply 0 = 8 * frame_version datagram + 4.
Proof.
  intros Hq Hlen Hmode Hr Ht.
  rewrite serve_one_client_sent by assumption. cbn [fst Server.sent].
  eexists. split; [reflexivity|].
  unfold frame_version at 1. rewrite index_frame_layout_0.
  destruct (first_byte_client datagram (from_bytes_big (slice datagram 40 48))
              (add_int (Float t_recv) TIME_OFFSET)) as (_ & _ & Hv).
  split; [exact Hv|]. split; [apply first_byte_client_leap|].
  unfold SNTPMessage.first_byte, SNTPMessage.init, frame_version, index.
  cbn [SNTPMessage.leap_indicator SNTPMessage.version SNTPMessage.mode].
  destruct (nth 0 datagram x00); reflexivity.
Qed.

Lemma version_is_echoed_witness :
  exists reply,
    Server.sent (fst (serve_one (Server.init 9123 5) sample_request
                        sample_client sample_t_recv sample_t_send))
    = Server.sent (Server.init 9123 5) ++ [(reply, sample_client)]
    /\ frame_version reply = frame_version sample_request
    /\ Z.shiftr (index reply 0) 6 = 0
    /\ index reply 0 = 8 * frame_version sample_request + 4.
Proof.
  apply (version_is_echoed (Server.init 9123 5) sample_request sample_client
           sample_t_recv sample_t_send).
  - reflexivity.
  - simpl. lia.
  - reflexivity.
  - vm_compute. split; [discriminate | reflexivity].
  - vm_compute. split; [discriminate | reflexivity].
Defined.

(** X4: [format_request] reads byte 0 and bytes 40-47 of a datagram of
    48 bytes or more and nothing else: two such datagrams that agree
    there decode alike, whatever their other bytes and their lengths. *)
Theorem format_request_reads_two_fields (d1 d2 : bytes) (t : Q) :
  (48 <= List.length d1)%nat ->
  (48 <= List.length d2)%nat ->
  index d1 0 = index d2 0 ->
  slice d1 40 48 = slice d2 40 48 ->
  Server.format_request d1 t = Server.format_request d2 t.
Proof.
  intros H1 H2 Hb Hs. unfold Server.format_request.
  apply Nat.ltb_ge in H1, H2. now rewrite H1, H2, Hb, Hs.
Qed.

Lemma format_request_reads_two_fields_witness :
  Server.format_request sample_request sample_t_recv
  = Server.format_request
      ([x1b] ++ repeat xff 39 ++ [x00; x00; x00; x01; x00; x00; x00; x00]
       ++ repeat xaa 20) sample_t_recv.
Proof.
  apply (format_request_reads_two_fields sample_request
           ([x1b] ++ repeat xff 39 ++ [x00; x00; x00; x01; x00; x00; x00; x00]
            ++ repeat xaa 20) sample_t_recv).
  - simpl. lia.
  - simpl. lia.
  - reflexivity.
  - reflexivity.
Defined.

(** X5: the reply to a client request is not a client request: a
    server that receives it (this one or another) decodes it to [None]
    and sends nothing, so two servers cannot answer each other. *)
Theorem reply_is_not_answered (srv : Server.t) (datagram : bytes)
    (sender : Server.address) (t_recv t_send : Q) :
  Server.requests srv = [] ->
  (48 <= List.length datagram)%nat ->
  frame_mode datagram = 3 ->
  fits_u64 (ntp_stamp (Server.time_delay srv) t_recv) ->
  fits_u64 (ntp_stamp (Server.time_delay srv) t_send) ->
  exists reply,
    Server.sent (fst (serve_one srv datagram sender t_recv t_send))
    = Server.sent srv ++ [(reply, sender)]
    /\ forall (srv' : Server.t) (sender' : Server.address) (t t' : Q),
         Server.format_request (Server.recvfrom 1024 reply) t = None
         /\ (Server.requests srv' = [] ->
             serve_one srv' reply sender' t t'
             = (Server.mk (Server.port srv') (Server.time_delay srv') []
                  (Server.sent srv'), Ok tt)).
Proof.
  intros Hq Hlen Hmode Hr Ht.
  rewrite serve_one_client_sent by assumption. cbn [fst Server.sent].
  eexists. split; [reflexivity|].
  intros srv' sender' t t'.
  match goal with |- context [Server.recvfrom 1024 ?f] => set (reply := f) end.
  assert (Hl : (48 <= List.length reply)%nat)
    by (unfold reply; rewrite length_frame_layout; lia).
  assert (Hm : frame_mode reply <> 3).
  { unfold reply, frame_mode. rewrite index_frame_layout_0.
    destruct (first_byte_client datagram
                (from_bytes_big (slice datagram 40 48))
                (add_int (Float t_recv) TIME_OFFSET)) as (_ & -> & _).
    discriminate. }
  split.
  - apply format_request_other_mode;
      [now apply recvfrom_long | now rewrite frame_mode_recvfrom].
  - intros Hq'. now apply serve_one_other_mode.
Qed.

Lemma reply_is_not_answered_witness :
  exists reply,
    Server.sent (fst (serve_one (Server.init 9123 5) sample_request
                        sample_client sample_t_recv sample_t_send))
    = Server.sent (Server.init 9123 5) ++ [(reply, sample_client)]
    /\ Server.format_request (Server.recvfrom 1024 reply) sample_t_send = None.
Proof.
  destruct (reply_is_not_answered (Server.init 9123 5) sample_request
              sample_client sample_t_recv sample_t_send)
    as (reply & Hs & Hn).
  - reflexivity.
  - simpl. lia.
  - reflexivity.
  - vm_compute. split; [discriminate | reflexivity].
  - vm_compute. split; [discriminate | reflexivity].
  - exists reply. split; [exact Hs|].
    exact (proj1 (Hn (Server.init 9123 5) sample_client
                    sample_t_send sample_t_send)).
Defined.

(** A frame whose byte 0 is [0x1B] is decoded as a version-3 client
    request, and the answer echoes its bytes 40-47. *)
Lemma frame_1b_is_a_request (frame : bytes) (o : Z) :
  (48 <= List.length frame)%nat ->
  index frame 0 = 27 ->
  frame_transmit frame = o ->
  forall (srv' : Server.t) (sender' : Server.address) (t t' : Q),
    Server.format_request (Server.recvfrom 1024 frame) t
    = Some (SNTPMessage.init true 3 4 o (add_int (Float t) TIME_OFFSET))
    /\ (Server.requests srv' = [] ->
        fits_u64 (ntp_stamp (Server.time_delay srv') t) ->
        fits_u64 (ntp_stamp (Server.time_delay srv') t') ->
        exists reply',
          Server.sent (fst (serve_one srv' frame sender' t t'))
          = Server.sent srv' ++ [(reply', sender')]
          /\ frame_originate reply' = o).
Proof.
  intros Hl Hb Ho srv' sender' t t'.
  assert (Hm : frame_mode frame = 3) by (unfold frame_mode; now rewrite Hb).
  assert (Hv : frame_version frame = 3)
    by (unfold frame_version; now rewrite Hb).
  unfold frame_transmit in Ho. split.
  - rewrite format_request_client
      by (rewrite ?frame_mode_recvfrom; auto with sntp).
    now rewrite frame_version_recvfrom, slice_recvfrom, Hv, Ho by lia.
  - intros Hq' Hr' Ht'.
    rewrite serve_one_client_sent by assumption. cbn [fst Server.sent].
    eexists. split; [reflexivity|].
    rewrite frame_originate_layout by apply originate_fits. exact Ho.
Qed.

(** X6: the reply to a datagram shorter than 48 bytes has mode 3 and
    version 3 (byte 0 is [0x1B]), so it is itself a client request: a
    server that receives it decodes it as one, taking the reply's
    transmit stamp as originate value, and answers it when its own
    stamps fit. *)
Theorem short_reply_is_a_request (srv : Server.t) (datagram : bytes)
    (sender : Server.address) (t_recv t_send : Q) :
  Server.requests srv = [] ->
  (List.length datagram < 48)%nat ->
  0 <= Server.time_delay srv < 2 ^ 32 ->
  fits_u64 (ntp_stamp (Server.time_delay srv) t_send) ->
  exists reply,
    Server.sent (fst (serve_one srv datagram sender t_recv t_send))
    = Server.sent srv ++ [(reply, sender)]
    /\ index reply 0 = 0x1B
    /\ frame_mode reply = 3
    /\ forall (srv' : Server.t) (sender' : Server.address) (t t' : Q),
         Server.format_request (Server.recvfrom 1024 reply) t
         = Some (SNTPMessage.init true 3 4
                   (ntp_stamp (Server.time_delay srv) t_send)
                   (add_int (Float t) TIME_OFFSET))
         /\ (Server.requests srv' = [] ->
             fits_u64 (ntp_stamp (Server.time_delay srv') t) ->
             fits_u64 (ntp_stamp (Server.time_delay srv') t') ->
             exists reply',
               Server.sent (fst (serve_one srv' reply sender' t t'))
               = Server.sent srv' ++ [(reply', sender')]
               /\ frame_originate reply'
                  = ntp_stamp (Server.time_delay srv) t_send).
Proof.
  intros Hq Hlen Hd Ht.
  rewrite serve_one_short_sent by assumption. cbn [fst Server.sent].
  eexists. split; [reflexivity|].
  split; [apply index_frame_layout_0|].
  split; [unfold frame_mode; now rewrite index_frame_layout_0|].
  apply frame_1b_is_a_request.
  - rewrite length_frame_layout. lia.
  - apply index_frame_layout_0.
  - apply frame_transmit_layout. exact Ht.
Qed.

Lemma short_reply_is_a_request_witness :
  exists reply,
    Server.sent (fst (serve_one (Server.init 9123 5) [x1b; x00] sample_client
                        sample_t_recv sample_t_send))
    = Server.sent (Server.init 9123 5) ++ [(reply, sample_client)]
    /\ index reply 0 = 0x1B
    /\ frame_mode reply = 3.
Proof.
  destruct (short_reply_is_a_request (Server.init 9123 5) [x1b; x00]
              sample_client sample_t_recv sample_t_send)
    as (reply & Hs & Hb & Hm & _).
  - reflexivity.
  - simpl. lia.
  - simpl. lia.
  - vm_compute. split; [discriminate | reflexivity].
  - exists reply. repeat split; assumption.
Defined.

(** ** Stamps *)

Lemma Qfloor_plus_Z (q : Q) (z : Z) :
  Qfloor (q + inject_Z z) = Qfloor q + z.
Proof.
  destruct q as [n d]. unfold Qfloor, Qplus, inject_Z. cbn [Qnum Qden].
  rewrite Pos.mul_1_r, Z.mul_1_r. apply Z.div_add. lia.
Qed.

Lemma format_time_floor_nonneg (x : Q) :
  (0 <= x)%Q -> SNTPMessage.format_time x = Qfloor (x * inject_Z (2 ^ 32)).
Proof.
  intros H. unfold SNTPMessage.format_time. apply py_int_floor.
  apply Qmult_le_0_compat; [exact H | apply Qlt_le_weak, two32_pos].
Qed.

Lemma ntp_time_idem (t : Q) :
  (inject_Z (2 ^ 31) <= t + inject_Z TIME_OFFSET)%Q ->
  (t + inject_Z TIME_OFFSET < inject_Z (2 ^ 32))%Q ->
  (fadd (ntp_time t) (float_of_int 0) == ntp_time t)%Q.
Proof.
  intros H1 H2. destruct (ntp_time_era t H1 H2) as (M & HM & Ea).
  unfold fadd. change (float_of_int 0) with 0%Q.
  apply Qeq_trans with (round53 (ntp_time t));
    [apply round53_Qeq; ring|].
  destruct (Z.eq_dec M (2 ^ 53)) as [E|E].
  - subst M.
    assert (Ea' : (ntp_time t == inject_Z (2 ^ 32))%Q)
      by (rewrite Ea; reflexivity).
    rewrite (round53_Qeq _ _ Ea'), round53_int by reflexivity.
    symmetry. exact Ea'.
  - rewrite (round53_Qeq _ _ Ea), round53_era_exact by lia.
    symmetry. exact Ea.
Qed.

(** X7: for a clock reading of the era ([2^31 <= reading + offset <
    2^32]) and a delay [D] for which the stamp fits, the delay moves the
    stamp by exactly [D * 2^32]: the seconds word changes by [D], the
    fraction word not at all. *)
Theorem delay_shifts_stamp (delay : Z) (t : Q) :
  (inject_Z (2 ^ 31) <= t + inject_Z TIME_OFFSET)%Q ->
  (t + inject_Z TIME_OFFSET < inject_Z (2 ^ 32))%Q ->
  fits_u64 (ntp_stamp delay t) ->
  ntp_stamp delay t = ntp_stamp 0 t + delay * 2 ^ 32.
Proof.
  intros H1 H2 Hf.
  destruct (ntp_time_era t H1 H2) as (M & HM & Ea).
  destruct (era_sum_exact t delay H1 H2 Hf) as (Es & K & Ek).
  assert (S0 : (inject_Z (ntp_stamp 0 t)
                == ntp_time t * inject_Z (2 ^ 32))%Q).
  { rewrite ntp_stamp_ntp_time,
      (format_time_Qeq _ _ (ntp_time_idem t H1 H2)).
    now apply (format_time_grid _ M). }
  assert (SD : (inject_Z (ntp_stamp delay t)
                == (ntp_time t + inject_Z delay) * inject_Z (2 ^ 32))%Q).
  { rewrite ntp_stamp_ntp_time, (format_time_Qeq _ _ Es).
    now apply (format_time_grid _ K). }
  apply inject_Z_injective.
  rewrite inject_Z_plus, inject_Z_mult, S0, SD. ring.
Qed.

Lemma delay_shifts_stamp_witness :
  ntp_stamp 5 sample_t_odd = ntp_stamp 0 sample_t_odd + 5 * 2 ^ 32.
Proof.
  apply (delay_shifts_stamp 5 sample_t_odd).
  - vm_compute. discriminate.
  - vm_compute. reflexivity.
  - vm_compute. split; [discriminate | reflexivity].
Defined.

(** X8: for a time that is not negative, the upper word of the stamp
    ([format_time x] divided by [2^32]) is the whole number of seconds,
    and the lower word is the stamp of the fraction of a second. *)
Theorem stamp_words (x : Q) :
  (0 <= x)%Q ->
  SNTPMessage.format_time x / 2 ^ 32 = Qfloor x
  /\ SNTPMessage.format_time x mod 2 ^ 32
     = SNTPMessage.format_time (x - inject_Z (Qfloor x)).
Proof.
  intros H.
  assert (Hhi : SNTPMessage.format_time x / 2 ^ 32 = Qfloor x).
  { rewrite format_time_floor_nonneg by exact H.
    destruct x as [n d]. unfold Qfloor, Qmult, inject_Z. cbn [Qnum Qden].
    rewrite Pos.mul_1_r, Z.div_div by lia.
    apply Z.div_mul_cancel_r; lia. }
  split; [exact Hhi|].
  assert (Hf : (0 <= x - inject_Z (Qfloor x))%Q).
  { pose proof (Qfloor_le x). lra. }
  rewrite Z.mod_eq, Hhi by lia.
  rewrite !format_time_floor_nonneg by assumption.
  replace (Qfloor (x * inject_Z (2 ^ 32)) - 2 ^ 32 * Qfloor x)
    with (Qfloor (x * inject_Z (2 ^ 32)) + - (Qfloor x * 2 ^ 32)) by ring.
  rewrite <- Qfloor_plus_Z. apply Qfloor_comp.
  rewrite inject_Z_opp, inject_Z_mult. ring.
Qed.

Lemma stamp_words_witness :
  SNTPMessage.format_time (7 # 2) / 2 ^ 32 = Qfloor (7 # 2)
  /\ SNTPMessage.format_time (7 # 2) mod 2 ^ 32
     = SNTPMessage.format_time ((7 # 2) - inject_Z (Qfloor (7 # 2))).
Proof.
  apply (stamp_words (7 # 2)). vm_compute. discriminate.
Defined.

(** X9: [format_time] is odd: the stamp of [-x] is the negated stamp of
    [x], because [int()] cuts the fraction off toward zero. *)
Theorem format_time_opp (x : Q) :
  SNTPMessage.format_time (- x) = - SNTPMessage.format_time x.
Proof.
  unfold SNTPMessage.format_time, py_int.
  destruct x as [n d]. unfold Qopp, Qmult, inject_Z. cbn [Qnum Qden].
  rewrite Z.mul_opp_l. apply Z.quot_opp_l. lia.
Qed.

(** X10: the stamp does not go down when the time goes up, and two
    times that are not negative and at least [2^-32] seconds apart get
    different stamps. *)
Theorem format_time_resolution (x y : Q) :
  ((x <= y)%Q -> SNTPMessage.format_time x <= SNTPMessage.format_time y)
  /\ ((0 <= x)%Q -> (x + 1 / inject_Z (2 ^ 32) <= y)%Q ->
      SNTPMessage.format_time x < SNTPMessage.format_time y).
Proof.
  split; [apply format_time_mono|].
  intros H0 Hxy.
  assert (Hy : (0 <= y)%Q).
  { apply Qle_trans with (x + 1 / inject_Z (2 ^ 32))%Q; [|exact Hxy].
    change (1 / inject_Z (2 ^ 32))%Q with (1 # 4294967296)%Q.
    assert (0 < 1 # 4294967296)%Q by reflexivity. lra. }
  rewrite !format_time_floor_nonneg by assumption.
  assert (Hs : (x * inject_Z (2 ^ 32) + 1 <= y * inject_Z (2 ^ 32))%Q).
  { setoid_replace (x * inject_Z (2 ^ 32) + 1)%Q
      with ((x + 1 / inject_Z (2 ^ 32)) * inject_Z (2 ^ 32))%Q
      by (field; discriminate).
    apply Qmult_le_compat_r; [exact Hxy | apply Qlt_le_weak, two32_pos]. }
  apply Z.lt_le_trans
    with (Qfloor (x * inject_Z (2 ^ 32) + inject_Z 1)).
  - rewrite Qfloor_plus_Z. lia.
  - apply Qfloor_resp_le. exact Hs.
Qed.

Lemma format_time_resolution_witness :
  SNTPMessage.format_time (1 # 3)
  < SNTPMessage.format_time ((1 # 3) + 1 / inject_Z (2 ^ 32)).
Proof.
  apply (proj2 (format_time_resolution (1 # 3)
                  ((1 # 3) + 1 / inject_Z (2 ^ 32)))).
  - vm_compute. discriminate.
  - vm_compute. discriminate.
Defined.

(** ** The worker and the queue *)

Lemma worker_iteration (self : Server.t) (now : Q) :
  Server.requests (fst (Server.reply_to_request self now))
  = tl (Server.requests self)
  /\ Server.port (fst (Server.reply_to_request self now)) = Server.port self
  /\ Server.time_delay (fst (Server.reply_to_request self now))
     = Server.time_delay self
  /\ (Server.sent (fst (Server.reply_to_request self now)) = Server.sent self
      \/ exists m a rest reply,
           Server.requests self = (Some m, a) :: rest
           /\ Server.sent (fst (Server.reply_to_request self now))
              = Server.sent self ++ [(reply, a)]).
Proof.
  unfold Server.reply_to_request.
  destruct (Server.requests self) as [|[[m|] a] rest] eqn:E.
  - cbn [fst tl]. rewrite E. repeat split; try reflexivity. now left.
  - destruct (SNTPMessage.get_reply
                (SNTPMessage.set_time_offset m (Server.time_delay self)) now)
      as [reply|e];
      cbn [fst tl Server.requests Server.port Server.time_delay Server.sent];
      repeat split; try reflexivity.
    + right. exists m, a, rest, reply. now split.
    + now left.
  - cbn [fst tl Server.requests Server.port Server.time_delay Server.sent].
    repeat split; try reflexivity. now left.
Qed.


(** X11: one worker iteration takes exactly the oldest entry off the
    queue, whether it answers it, drops it or raises on it (nothing is
    put back or retried); it leaves the configuration alone and hands
    the socket at most one datagram, addressed to the sender of that
    entry. *)
Theorem worker_takes_one_entry (self : Server.t) (now : Q) :
  Server.requests (fst (Server.reply_to_request self now))
  = tl (Server.requests self)
  /\ Server.port (fst (Server.reply_to_request self now)) = Server.port self
  /\ Server.time_delay (fst (Server.reply_to_request self now))
     = Server.time_delay self
  /\ (Server.sent (fst (Server.reply_to_request self now)) = Server.sent self
      \/ exists m a rest reply,
           Server.requests self = (Some m, a) :: rest
           /\ Server.sent (fst (Server.reply_to_request self now))
              = Server.sent self ++ [(reply, a)]).
Proof. exact (worker_iteration self now). Qed.

Lemma step_counts (srv : Server.t) (ev : event) :
  (List.length (Server.sent (step srv ev))
   + List.length (Server.requests (step srv ev))
   <= List.length (Server.sent srv) + List.length (Server.requests srv)
      + List.length (arrivals [ev]))%nat.
Proof.
  destruct ev as [datagram sender now | now]; cbn [step arrivals List.length].
  - unfold Server.receive_request. cbn [Server.sent Server.requests].
    rewrite length_app. cbn [List.length]. lia.
  - destruct (worker_iteration srv now) as (Hq & _ & _ & Hs).
    rewrite Hq.
    destruct Hs as [-> | (m & a & rest & reply & E & ->)].
    + destruct (Server.requests srv); cbn [tl List.length]; lia.
    + rewrite E, length_app. cbn [tl List.length]. lia.
Qed.

Lemma arrivals_cons (ev : event) (evs : list event) :
  List.length (arrivals (ev :: evs))
  = (List.length (arrivals [ev]) + List.length (arrivals evs))%nat.
Proof. destruct ev; reflexivity. Qed.

(** X12: over any schedule of receiver and worker iterations, the
    datagrams sent plus the entries still queued never outnumber what
    was there at the start plus the datagrams that arrived: a server
    started fresh never sends more datagrams than it received. *)
Theorem sent_bounded_by_arrivals (evs : list event) (srv : Server.t) :
  (List.length (Server.sent (run srv evs))
   + List.length (Server.requests (run srv evs))
   <= List.length (Server.sent srv) + List.length (Server.requests srv)
      + List.length (arrivals evs))%nat
  /\ (forall port delay,
        List.length (Server.sent (run (Server.init port delay) evs))
        <= List.length (arrivals evs))%nat.
Proof.
  assert (H : forall evs srv,
    (List.length (Server.sent (run srv evs))
     + List.length (Server.requests (run srv evs))
     <= List.length (Server.sent srv) + List.length (Server.requests srv)
        + List.length (arrivals evs))%nat).
  { clear. unfold run. induction evs as [|ev evs IH]; intros srv.
    - cbn [fold_left arrivals List.length]. lia.
    - cbn [fold_left]. specialize (IH (step srv ev)).
      pose proof (step_counts srv ev). rewrite arrivals_cons. lia. }
  split; [apply H|].
  intros port delay. specialize (H evs (Server.init port delay)).
  cbn [Server.init Server.sent Server.requests List.length] in H. lia.
Qed.

Lemma step_addresses (srv : Server.t) (ev : event) :
  incl (map snd (Server.sent (step srv ev))
        ++ map snd (Server.requests (step srv ev)))
       (map snd (Server.sent srv) ++ map snd (Server.requests srv)
        ++ arrivals [ev]).
Proof.
  intros x. destruct ev as [datagram sender now | now];
    cbn [step arrivals].
  - unfold Server.receive_request. cbn [Server.sent Server.requests].
    rewrite map_app, !in_app_iff. cbn [map snd In]. tauto.
  - destruct (worker_iteration srv now) as (Hq & _ & _ & Hs).
    rewrite Hq.
    destruct Hs as [-> | (m & a & rest & reply & E & ->)].
    + rewrite !in_app_iff.
      destruct (Server.requests srv); cbn [tl map In]; tauto.
    + rewrite E, map_app, !in_app_iff. cbn [tl map snd In]. tauto.
Qed.

(** X13: over any schedule, every address a datagram was sent to is
    the sender of a datagram that arrived (or was already in the sent
    log or the queue at the start): the server never writes to an
    address it has not heard from. *)
Theorem sent_only_to_senders (evs : list event) (srv : Server.t) :
  incl (map snd (Server.sent (run srv evs)))
       (map snd (Server.sent srv) ++ map snd (Server.requests srv)
        ++ arrivals evs)
  /\ (forall port delay,
        incl (map snd (Server.sent (run (Server.init port delay) evs)))
             (arrivals evs)).
Proof.
  assert (H : forall evs srv,
    incl (map snd (Server.sent (run srv evs))
          ++ map snd (Server.requests (run srv evs)))
         (map snd (Server.sent srv) ++ map snd (Server.requests srv)
          ++ arrivals evs)).
  { clear. unfold run. induction evs as [|ev evs IH]; intros srv.
    - cbn [fold_left arrivals]. rewrite app_nil_r. apply incl_refl.
    - cbn [fold_left]. intros x Hx. apply IH in Hx.
      rewrite app_assoc in Hx. apply in_app_or in Hx.
      destruct Hx as [Hx | Hx].
      + apply step_addresses in Hx. rewrite !in_app_iff in *.
        destruct ev; cbn [arrivals In] in *; tauto.
      + rewrite !in_app_iff. destruct ev; cbn [arrivals In]; tauto. }
  split.
  - intros x Hx. apply (H evs srv). apply in_app_iff. now left.
  - intros port delay x Hx.
    specialize (H evs (Server.init port delay) x).
    cbn [Server.init Server.sent Server.requests map app] in H.
    apply H. apply in_app_iff. now left.
Qed.

Lemma plain_frame_layout (f o r t : Z) :
  Z.shiftr (f mod 256) 6 = 0 -> plain_reply (frame_layout f 0 0 0 o r t).
Proof.
  intros Hf. unfold plain_reply.
  rewrite length_frame_layout, index_frame_layout_0.
  split; [reflexivity | split; [exact Hf | reflexivity]].
Qed.

Lemma decoded_reply_plain (m : SNTPMessage.t) (delay : Z) (now : Q) :
  decoded m ->
  packable (SNTPMessage.set_time_offset m delay) now = true ->
  plain_reply (reply_frame (SNTPMessage.set_time_offset m delay) now).
Proof.
  intros (data & t & H) _.
  destruct (format_request_cases data t m H) as [[_ ->] | (_ & _ & ->)].
  - unfold SNTPMessage.init_default. rewrite reply_frame_init.
    now apply plain_frame_layout.
  - rewrite reply_frame_init.
    apply plain_frame_layout, first_byte_client_leap.
Qed.

Lemma step_plain (srv : Server.t) (ev : event) :
  Forall (fun e => forall m, fst e = Some m -> decoded m)
    (Server.requests srv) ->
  Forall (fun e => plain_reply (fst e)) (Server.sent srv) ->
  Forall (fun e => forall m, fst e = Some m -> decoded m)
    (Server.requests (step srv ev))
  /\ Forall (fun e => plain_reply (fst e)) (Server.sent (step srv ev)).
Proof.
  intros Hq Hs. destruct ev as [datagram sender now | now]; cbn [step].
  - unfold Server.receive_request. cbn [Server.requests Server.sent].
    split; [|exact Hs].
    apply Forall_app. split; [exact Hq|].
    constructor; [|constructor]. cbn [fst]. intros m Hm.
    now exists (Server.recvfrom 1024 datagram), now.
  - destruct (Server.requests srv) as [|[[m|] a] rest] eqn:E.
    + unfold Server.reply_to_request. rewrite E. cbn [fst].
      rewrite E. now split.
    + inversion Hq as [|? ? Hm Hrest]; subst.
      rewrite (reply_to_request_entry srv m a rest now E).
      destruct (packable (SNTPMessage.set_time_offset m
                            (Server.time_delay srv)) now) eqn:Hp;
        cbn [fst Server.requests Server.sent]; split; try assumption.
      apply Forall_app. split; [exact Hs|].
      constructor; [|constructor]. cbn [fst].
      apply decoded_reply_plain; [now apply Hm | exact Hp].
    + inversion Hq as [|? ? Hm Hrest]; subst.
      rewrite (reply_to_request_none srv a rest now E).
      cbn [fst Server.requests Server.sent]. now split.
Qed.

(** X14: over any schedule, every datagram the server sends has 48
    bytes, leap indicator 0 and zero in bytes 1-23 (stratum, poll,
    precision and the five 32-bit words), whatever it was sent in
    answer to. *)
Theorem sent_frames_are_plain (evs : list event) (srv : Server.t) :
  Server.requests srv = [] ->
  Forall (fun e => plain_reply (fst e)) (Server.sent srv) ->
  Forall (fun e => plain_reply (fst e)) (Server.sent (run srv evs)).
Proof.
  intros Hq Hs.
  assert (Hq' : Forall (fun e => forall m, fst e = Some m -> decoded m)
                  (Server.requests srv)) by (rewrite Hq; constructor).
  clear Hq. unfold run. revert srv Hq' Hs.
  induction evs as [|ev evs IH]; intros srv Hq Hs; [exact Hs|].
  cbn [fold_left]. destruct (step_plain srv ev Hq Hs) as [Hq' Hs'].
  now apply IH.
Qed.

Lemma sent_frames_are_plain_witness :
  Forall (fun e => plain_reply (fst e))
    (Server.sent
       (run (Server.init 9123 5)
          [Arrive [x1b; x00] sample_client sample_t_recv;
           Arrive sample_request sample_client sample_t_recv;
           Work sample_t_send; Work sample_t_send])).
Proof.
  apply (sent_frames_are_plain
           [Arrive [x1b; x00] sample_client sample_t_recv;
            Arrive sample_request sample_client sample_t_recv;
            Work sample_t_send; Work sample_t_send] (Server.init 9123 5)).
  - reflexivity.
  - simpl. constructor.
Defined.

(** ** The test client *)

(** X15: the datagram that [test_client.py] sends, [b'testData' * 15],
    has 120 bytes and mode bits 4 in its first byte ['t'], so the
    server decodes it to [None] and sends nothing back, whatever its
    port, delay and clock. *)
Theorem test_client_gets_no_reply (port delay : Z) (sender : Server.address)
    (t_recv t_send : Q) :
  List.length test_client_datagram = 120%nat
  /\ frame_mode test_client_datagram = 4
  /\ Server.format_request (Server.recvfrom 1024 test_client_datagram) t_recv
     = None
  /\ serve_one (Server.init port delay) test_client_datagram sender
       t_recv t_send
     = (Server.init port delay, Ok tt).
Proof.
  assert (Hl : (48 <= List.length test_client_datagram)%nat)
    by (cbn; lia).
  assert (Hm : frame_mode test_client_datagram <> 3) by discriminate.
  split; [reflexivity|]. split; [reflexivity|]. split.
  - apply format_request_other_mode;
      [now apply recvfrom_long | now rewrite frame_mode_recvfrom].
  - now rewrite serve_one_other_mode.
Qed.

(** ** Every answerable datagram is answered once *)

Lemma format_request_answers (datagram : bytes) (t : Q)
    (a : Server.address) :
  answers_queued
    [(Server.format_request (Server.recvfrom 1024 datagram) t, a)]
  = if answerable datagram then [(echo_value datagram, a)] else [].
Proof.
  unfold answerable, echo_value, answers_queued.
  destruct (Nat.lt_ge_cases (List.length datagram) 48) as [Hl|Hl].
  - rewrite format_request_short by auto with sntp.
    apply Nat.ltb_lt in Hl. now rewrite Hl.
  - pose proof Hl as Hl'. apply Nat.ltb_ge in Hl'. rewrite Hl'. cbn [orb].
    destruct (Z.eq_dec (frame_mode datagram) 3) as [Hm|Hm].
    + rewrite format_request_client
        by (rewrite ?frame_mode_recvfrom; auto with sntp).
      rewrite slice_recvfrom by lia.
      apply Z.eqb_eq in Hm. now rewrite Hm.
    + rewrite format_request_other_mode
        by (rewrite ?frame_mode_recvfrom; auto with sntp).
      apply Z.eqb_neq in Hm. now rewrite Hm.
Qed.

Lemma answers_queued_app
    (q1 q2 : list (option SNTPMessage.t * Server.address)) :
  answers_queued (q1 ++ q2) = answers_queued q1 ++ answers_queued q2.
Proof. unfold answers_queued. apply flat_map_app. Qed.

Lemma answers_sent_app (l1 l2 : list (bytes * Server.address)) :
  answers_sent (l1 ++ l2) = answers_sent l1 ++ answers_sent l2.
Proof. unfold answers_sent. apply map_app. Qed.

(** A message the receiver queued while the clock was in the era can be
    packed whenever the clock is in the era. *)
Lemma format_request_packable (delay : Z) (data : bytes) (t : Q)
    (m : SNTPMessage.t) (now : Q) :
  0 <= delay < 2 ^ 32 ->
  fits_u64 (ntp_stamp delay t) ->
  Server.format_request data t = Some m ->
  fits_u64 (ntp_stamp delay now) ->
  packable (SNTPMessage.set_time_offset m delay) now = true.
Proof.
  intros Hd Ht H Hnow. apply in_range_Q_fits in Hnow.
  destruct (format_request_cases data t m H) as [[_ ->] | (_ & _ & ->)].
  - unfold SNTPMessage.init_default.
    rewrite packable_init, Hnow;
      [ | reflexivity | unfold fits_u64; lia].
    cbn [add_int number_value Z.add].
    rewrite format_time_inject_Z, andb_true_r.
    apply in_range_Q_fits. unfold fits_u64. lia.
  - rewrite packable_init, Hnow;
      [ | apply first_byte_client | apply originate_fits].
    rewrite andb_true_r. apply in_range_Q_fits. exact Ht.
Qed.

Lemma packable_originate (m : SNTPMessage.t) (now : Q) :
  packable m now = true ->
  frame_originate (reply_frame m now) = SNTPMessage.originate_time m.
Proof.
  intros Hp. unfold packable in Hp. rewrite !andb_true_iff in Hp.
  destruct Hp as [[[_ Ho] _] _]. apply in_range_Q_fits in Ho.
  unfold reply_frame. now apply frame_originate_layout.
Qed.

Lemma step_answers (srv : Server.t) (ev : event) :
  0 <= Server.time_delay srv < 2 ^ 32 ->
  in_era (Server.time_delay srv) ev ->
  Forall (fun e => forall m now, fst e = Some m ->
            fits_u64 (ntp_stamp (Server.time_delay srv) now) ->
            packable (SNTPMessage.set_time_offset m (Server.time_delay srv))
              now = true)
    (Server.requests srv) ->
  Server.time_delay (step srv ev) = Server.time_delay srv
  /\ Forall (fun e => forall m now, fst e = Some m ->
               fits_u64 (ntp_stamp (Server.time_delay srv) now) ->
               packable
                 (SNTPMessage.set_time_offset m (Server.time_delay srv))
                 now = true)
       (Server.requests (step srv ev))
  /\ answers_sent (Server.sent (step srv ev))
     ++ answers_queued (Server.requests (step srv ev))
     = (answers_sent (Server.sent srv)
        ++ answers_queued (Server.requests srv))
       ++ answers_due [ev].
Proof.
  intros Hd Hev Hq.
  destruct ev as [datagram sender t | t]; cbn [step answers_due].
  - unfold Server.receive_request.
    cbn [Server.time_delay Server.requests Server.sent].
    split; [reflexivity|]. split.
    + apply Forall_app. split; [exact Hq|].
      constructor; [|constructor]. cbn [fst]. intros m now Hm Hnow.
      now apply (format_request_packable _
                   (Server.recvfrom 1024 datagram) t).
    + rewrite answers_queued_app,
        (format_request_answers datagram t sender), app_nil_r.
      now rewrite app_assoc.
  - rewrite app_nil_r.
    destruct (Server.requests srv) as [|[[m|] a] rest] eqn:E.
    + unfold Server.reply_to_request. rewrite E. cbn [fst].
      rewrite E. repeat split. constructor.
    + inversion Hq as [|? ? Hm Hrest]; subst.
      rewrite (reply_to_request_entry srv m a rest t E).
      rewrite (Hm m t eq_refl Hev).
      cbn [fst Server.time_delay Server.requests Server.sent].
      split; [reflexivity|]. split; [exact Hrest|].
      rewrite answers_sent_app. unfold answers_sent at 2.
      cbn [map fst snd].
      rewrite (packable_originate _ _ (Hm m t eq_refl Hev)).
      unfold answers_queued. cbn [flat_map fst snd app].
      now rewrite <- app_assoc.
    + inversion Hq as [|? ? Hm Hrest]; subst.
      rewrite (reply_to_request_none srv a rest t E).
      cbn [fst Server.time_delay Server.requests Server.sent].
      split; [reflexivity|]. split; [exact Hrest|]. reflexivity.
Qed.

Lemma answers_due_cons (ev : event) (evs : list event) :
  answers_due (ev :: evs) = answers_due [ev] ++ answers_due evs.
Proof.
  destruct ev; cbn [answers_due]; now rewrite ?app_nil_r.
Qed.

(** X17: with a delay [D], [0 <= D < 2^32], and every clock reading of
    the schedule giving a stamp that fits 64 bits, each answerable
    datagram (too short, or a client request) is answered once: the
    datagrams sent, each taken by its destination and its originate
    field, together with the messages still queued, are up to order
    exactly the answerable datagrams that arrived, each taken by its
    sender and the value to echo; once the queue is empty the datagrams
    sent alone are. *)
Theorem each_answerable_datagram_answered_once (evs : list event)
    (srv : Server.t) :
  0 <= Server.time_delay srv < 2 ^ 32 ->
  Server.requests srv = [] ->
  Forall (in_era (Server.time_delay srv)) evs ->
  Permutation
    (answers_sent (Server.sent (run srv evs))
     ++ answers_queued (Server.requests (run srv evs)))
    (answers_sent (Server.sent srv) ++ answers_due evs)
  /\ (Server.requests (run srv evs) = [] ->
      Permutation (answers_sent (Server.sent (run srv evs)))
        (answers_sent (Server.sent srv) ++ answers_due evs)).
Proof.
  intros Hd Hq Hevs.
  assert (H : answers_sent (Server.sent (run srv evs))
              ++ answers_queued (Server.requests (run srv evs))
              = (answers_sent (Server.sent srv)
                 ++ answers_queued (Server.requests srv))
                ++ answers_due evs).
  { assert (Hq' : Forall (fun e => forall m now, fst e = Some m ->
                     fits_u64 (ntp_stamp (Server.time_delay srv) now) ->
                     packable
                       (SNTPMessage.set_time_offset m (Server.time_delay srv))
                       now = true) (Server.requests srv))
      by (rewrite Hq; constructor).
    clear Hq. unfold run. revert srv Hd Hq' Hevs.
    induction evs as [|ev evs IH]; intros srv Hd Hq Hevs.
    - cbn [fold_left answers_due]. now rewrite app_nil_r.
    - inversion Hevs as [|? ? Hev Hrest]; subst.
      destruct (step_answers srv ev Hd Hev Hq) as (Hdelay & Hq' & Hc).
      cbn [fold_left]. rewrite IH; rewrite ?Hdelay; try assumption.
      rewrite Hc, (answers_due_cons ev evs). now rewrite <- !app_assoc. }
  rewrite Hq in H. cbn [answers_queued flat_map] in H.
  rewrite app_nil_r in H. split.
  - rewrite H. apply Permutation_refl.
  - intros He. rewrite He in H. cbn [answers_queued flat_map] in H.
    rewrite app_nil_r in H. rewrite H. apply Permutation_refl.
Qed.

Lemma each_answerable_datagram_answered_once_witness :
  Permutation
    (answers_sent
       (Server.sent
          (run (Server.init 9123 5)
             [Arrive [x1b; x00] sample_client sample_t_recv;
              Arrive test_client_datagram sample_client sample_t_recv;
              Arrive sample_request sample_client sample_t_odd;
              Work sample_t_send; Work sample_t_send; Work sample_t_send])))
    [(0, sample_client); (2 ^ 32, sample_client)].
Proof.
  refine (proj2 (each_answerable_datagram_answered_once
    [Arrive [x1b; x00] sample_client sample_t_recv;
     Arrive test_client_datagram sample_client sample_t_recv;
     Arrive sample_request sample_client sample_t_odd;
     Work sample_t_send; Work sample_t_send; Work sample_t_send]
    (Server.init 9123 5) _ _ _) _).
  - simpl. lia.
  - reflexivity.
  - repeat constructor; vm_compute; discriminate.
  - reflexivity.
Defined.

(** X18: the answer to a datagram that is too short depends neither on
    its bytes nor on when it arrived: any two such datagrams are served
    alike by the same server at the same send time. *)
Theorem short_datagrams_served_alike (srv : Server.t) (d1 d2 : bytes)
    (sender : Server.address) (t1 t2 t_send : Q) :
  Server.requests srv = [] ->
  (List.length d1 < 48)%nat ->
  (List.length d2 < 48)%nat ->
  serve_one srv d1 sender t1 t_send = serve_one srv d2 sender t2 t_send.
Proof.
  intros Hq H1 H2.
  now rewrite (serve_one_short srv d1 sender t1 t_send Hq H1),
    (serve_one_short srv d2 sender t2 t_send Hq H2).
Qed.

Lemma short_datagrams_served_alike_witness :
  serve_one (Server.init 9123 5) [] sample_client sample_t_recv sample_t_send
  = serve_one (Server.init 9123 5) [x1b; x00; xff] sample_client
      sample_t_send sample_t_send.
Proof.
  apply (short_datagrams_served_alike (Server.init 9123 5) [] [x1b; x00; xff]
           sample_client sample_t_recv sample_t_send sample_t_send).
  - reflexivity.
  - simpl. lia.
  - simpl. lia.
Defined.

(** ** The end of the era *)

Lemma format_time_overflow (x : Q) :
  (inject_Z (2 ^ 32) <= x)%Q ->
  Struct.in_range Struct.fmt_Q (SNTPMessage.format_time x) = false.
Proof.
  intros H. apply format_time_mono in H.
  rewrite format_time_inject_Z in H.
  unfold Struct.in_range. apply andb_false_iff. right.
  apply Z.ltb_ge. change (2 ^ 64) with (2 ^ 32 * 2 ^ 32). exact H.
Qed.

Lemma ntp_stamp_overflow (delay : Z) (t : Q) :
  Z.abs delay < 2 ^ 52 ->
  (inject_Z (2 ^ 32) <= t + inject_Z TIME_OFFSET + inject_Z delay)%Q ->
  Struct.in_range Struct.fmt_Q (ntp_stamp delay t) = false.
Proof.
  intros Hd H. unfold ntp_stamp. cbn [add_int number_value]. unfold fadd.
  apply format_time_overflow.
  pose proof float_of_TIME_OFFSET as Eo.
  assert (Ed : (float_of_int delay == inject_Z delay)%Q)
    by (apply float_of_int_exact; lia).
  apply round53_ge_int; [reflexivity|].
  assert (B : (inject_Z (2 ^ 32 - delay)
               <= round53 (t + float_of_int TIME_OFFSET))%Q).
  { apply round53_ge_int; [lia|].
    unfold Z.sub. rewrite inject_Z_plus, inject_Z_opp.
    apply (Qle_trans _ (t + inject_Z TIME_OFFSET)).
    - apply (Qplus_le_l _ _ (inject_Z delay)).
      apply (Qle_trans _ (inject_Z (2 ^ 32))); [|exact H].
      apply Qle_lteq. right. ring.
    - apply Qle_lteq. right. apply Qplus_comp; [reflexivity|].
      symmetry. exact Eo. }
  apply (Qle_trans _ (inject_Z (2 ^ 32 - delay) + inject_Z delay)).
  - apply Qle_lteq. right. unfold Z.sub.
    rewrite inject_Z_plus, inject_Z_opp. ring.
  - apply Qplus_le_compat; [exact B|].
    apply Qle_lteq. right. symmetry. exact Ed.
Qed.

(** X19: with a delay [D], [|D| < 2^52], and the worker's queue empty,
    when the clock at send time with the epoch offset and the delay added
    has reached [2^32] seconds (7 February 2036 for delay 0), the transmit
    stamp no longer fits its field: the worker iteration that takes the
    message of a datagram sends nothing, and for an answerable datagram
    it does not complete, [get_reply] raising out of
    [reply_to_request]. *)
Theorem no_reply_after_era (srv : Server.t) (datagram : bytes)
    (sender : Server.address) (t_recv t_send : Q) :
  Server.requests srv = [] ->
  Z.abs (Server.time_delay srv) < 2 ^ 52 ->
  (inject_Z (2 ^ 32)
   <= t_send + inject_Z TIME_OFFSET + inject_Z (Server.time_delay srv))%Q ->
  Server.sent (fst (serve_one srv datagram sender t_recv t_send))
  = Server.sent srv
  /\ (answerable datagram = true ->
      exists e,
        snd (serve_one srv datagram sender t_recv t_send) = Raise e).
Proof.
  intros Hq Hd Ht.
  assert (Hs : Struct.in_range Struct.fmt_Q
                 (ntp_stamp (Server.time_delay srv) t_send) = false)
    by now apply ntp_stamp_overflow.
  destruct (Nat.lt_ge_cases (List.length datagram) 48) as [Hl|Hl].
  - rewrite (serve_one_short srv datagram sender t_recv t_send Hq Hl).
    rewrite Hs, andb_false_r.
    split; [reflexivity | intros _; eexists; reflexivity].
  - destruct (Z.eq_dec (frame_mode datagram) 3) as [Hm|Hm].
    + rewrite (serve_one_client srv datagram sender t_recv t_send Hq Hl Hm).
      rewrite Hs, andb_false_r.
      split; [reflexivity | intros _; eexists; reflexivity].
    + rewrite (serve_one_other_mode srv datagram sender t_recv t_send)
        by assumption.
      split; [reflexivity|]. unfold answerable.
      apply Nat.ltb_ge in Hl. apply Z.eqb_neq in Hm. rewrite Hl, Hm.
      discriminate.
Qed.

Lemma no_reply_after_era_witness :
  Server.sent (fst (serve_one (Server.init 123 0) sample_request sample_client
                      (inject_Z 2085978495) (inject_Z 2085978496)))
  = Server.sent (Server.init 123 0)
  /\ exists e,
       snd (serve_one (Server.init 123 0) sample_request sample_client
              (inject_Z 2085978495) (inject_Z 2085978496))
       = Raise e.
Proof.
  destruct (no_reply_after_era (Server.init 123 0) sample_request
              sample_client (inject_Z 2085978495) (inject_Z 2085978496))
    as [Hs Hr].
  - reflexivity.
  - reflexivity.
  - vm_compute. discriminate.
  - split; [exact Hs | apply Hr; reflexivity].
Defined.
